(** * setup-image-analysis.py: a shallow embedding and its properties

    The script is glue code around four kinds of interaction with its
    environment: printing a line, spawning a shell command
    ([subprocess.check_call(..., shell=True)]), capturing the output of a
    process ([subprocess.check_output]) and reading a line from the
    operator ([input]).  The embedding keeps the control flow of the
    source and makes the environment explicit:

    - a [world] answers every question the script asks (what is on the
      PATH, what a command exits with, what the operator types);
    - a computation [M A] reads the world and yields the list of
      interactions it performed, in order, together with a value or a
      Python exception. *)

From Stdlib Require Import String Ascii List NArith ZArith Bool Lia.
Import ListNotations.
Local Open Scope string_scope.

(** ** Python values *)

(** The first argument of [subprocess.check_call] and
    [subprocess.check_output]: one string for the shell, or an argument
    vector. *)
Inductive popen_args : Type :=
| ShellCommand (command : string)
| Argv (argv : list string).

(** The exceptions the script can meet.  Asynchronous signals
    ([KeyboardInterrupt]) are outside the model, so the bare [except:] of
    the installation loop and [except Exception] of [check_python] catch
    the same things here. *)
Inductive exn : Type :=
| CalledProcessError (returncode : Z) (cmd : popen_args)
| OSError (msg : string)
| UnicodeDecodeError
| EOFError.

Inductive result (A : Type) : Type :=
| Ok (a : A)
| Raise (e : exn).
Arguments Ok {A} a.
Arguments Raise {A} e.

(** What the operating system reports for a child process: it ran and
    exited with a status, or it could not be spawned at all. *)
Inductive os_result : Type :=
| Exit (code : Z)
| SpawnFailed (msg : string).

(** Captured output is [bytes]; [bytes.decode()] fails on what is not
    UTF-8. *)
Inductive pybytes : Type :=
| Utf8 (text : string)
| NotUtf8.

Definition decode (b : pybytes) : result string :=
  match b with
  | Utf8 s => Ok s
  | NotUtf8 => Raise UnicodeDecodeError
  end.

(** ** The environment of one run *)

Record world : Type := mkWorld {
  which : string -> option string;        (* shutil.which *)
  executable : string;                    (* sys.executable *)
  platform : string;                      (* sys.platform *)
  shell : string -> os_result;            (* /bin/sh -c <command> *)
  version_query : list string -> os_result * pybytes;
                                          (* argv -> status, stdout+stderr *)
  stdin : option string;                  (* the operator's line; None at EOF *)
  py_str : exn -> string                  (* str(e), in the runtime's wording *)
}.

(** ** Interactions and computations *)

Inductive event : Type :=
| EPrint (line : string)
| EShell (command : string)
| ECheckOutput (argv : list string)
| EInput (prompt : string).

Definition M (A : Type) : Type := world -> list event * result A.

Definition ret {A} (a : A) : M A := fun _ => ([], Ok a).

Definition bind {A B} (m : M A) (f : A -> M B) : M B :=
  fun w =>
    match m w with
    | (t1, Ok a) => let (t2, r) := f a w in ((t1 ++ t2)%list, r)
    | (t1, Raise e) => (t1, Raise e)
    end.

Definition raise {A} (e : exn) : M A := fun _ => ([], Raise e).

(** [try: m  except <handled>: h] *)
Definition try_except {A} (m : M A) (handled : exn -> bool) (h : exn -> M A) : M A :=
  fun w =>
    match m w with
    | (t1, Ok a) => (t1, Ok a)
    | (t1, Raise e) =>
        if handled e then let (t2, r) := h e w in ((t1 ++ t2)%list, r)
        else (t1, Raise e)
    end.

Definition ask : M world := fun w => ([], Ok w).

(** A call of a function that only reads the environment. *)
Definition asks {A} (f : world -> A) : M A := fun w => ([], Ok (f w)).

Definition emit (e : event) : M unit := fun _ => ([e], Ok tt).

Notation "x <- m ;; k" := (bind m (fun x => k))
  (at level 61, m at next level, right associativity).
Notation "m ;; k" := (bind m (fun _ => k))
  (at level 61, right associativity).

Definition trace {A} (r : list event * result A) : list event := fst r.
Definition outcome {A} (r : list event * result A) : result A := snd r.

Definition print (line : string) : M unit := emit (EPrint line).

Definition lift {A} (r : result A) : M A := fun _ => ([], r).

(** ** String operations of the Python runtime

    A [str] is modelled by the [string] of the bytes of its UTF-8
    encoding, which is how the literals of this file are read. *)

Definition nl : string := String "010"%char "".

Fixpoint str_mul (s : string) (n : nat) : string :=
  match n with
  | O => ""
  | S k => s ++ str_mul s k
  end.

(** The UTF-8 encoding of a code point. *)
Definition utf8 (c : N) : string :=
  let byte n := ascii_of_N n in
  (if c <? 0x80 then
     String (byte c) ""
   else if c <? 0x800 then
     String (byte (0xC0 + c / 0x40)) (String (byte (0x80 + c mod 0x40)) "")
   else if c <? 0x10000 then
     String (byte (0xE0 + c / 0x1000))
       (String (byte (0x80 + (c / 0x40) mod 0x40))
          (String (byte (0x80 + c mod 0x40)) ""))
   else
     String (byte (0xF0 + c / 0x40000))
       (String (byte (0x80 + (c / 0x1000) mod 0x40))
          (String (byte (0x80 + (c / 0x40) mod 0x40))
             (String (byte (0x80 + c mod 0x40)) ""))))%N.

(** The code points that [str.strip] and [str.isspace] take for
    whitespace: TAB, LF, VT, FF, CR, FS, GS, RS, US, SPACE, NEL, NBSP and
    the Unicode space and line separators. *)
Definition whitespace_code_points : list N :=
  [0x09; 0x0A; 0x0B; 0x0C; 0x0D; 0x1C; 0x1D; 0x1E; 0x1F; 0x20;
   0x85; 0xA0; 0x1680;
   0x2000; 0x2001; 0x2002; 0x2003; 0x2004; 0x2005; 0x2006; 0x2007;
   0x2008; 0x2009; 0x200A;
   0x2028; 0x2029; 0x202F; 0x205F; 0x3000]%N.

(** The whitespace characters, each as the bytes of its encoding (one to
    three bytes). *)
Definition whitespace : list string := map utf8 whitespace_code_points.

(** Is this character, given by its bytes, whitespace? *)
Definition is_space (ch : string) : bool := existsb (String.eqb ch) whitespace.

(** [str.lower] on the ASCII letters.  The letters outside ASCII, whose
    lower-casing is the Unicode database's, are left as they are; in that
    database none of them lower-cases to [y], [e] or [s], and the
    whitespace characters lower-case to themselves, so the test of line
    138 comes out the same. *)
Definition lower_char (c : ascii) : ascii :=
  let n := nat_of_ascii c in
  if ((65 <=? n) && (n <=? 90))%nat then ascii_of_nat (n + 32) else c.

Fixpoint lower (s : string) : string :=
  match s with
  | "" => ""
  | String c rest => String (lower_char c) (lower rest)
  end.

(** [str.lstrip]: drops the whitespace characters at the front, whatever
    their length in bytes. *)
Fixpoint lstrip (s : string) : string :=
  match s with
  | "" => ""
  | String a rest1 =>
      if is_space (String a "") then lstrip rest1
      else
        match rest1 with
        | "" => s
        | String b rest2 =>
            if is_space (String a (String b "")) then lstrip rest2
            else
              match rest2 with
              | "" => s
              | String c rest3 =>
                  if is_space (String a (String b (String c ""))) then
                    lstrip rest3
                  else s
              end
        end
  end.

(** [str.rstrip]: what is left once the longest run of whitespace
    characters at the end is dropped.  In well-formed text a character
    boundary is the only place from which whitespace characters can be
    read off up to the end. *)
Fixpoint rstrip (s : string) : string :=
  match s with
  | "" => ""
  | String a rest => if lstrip s =? "" then "" else String a (rstrip rest)
  end.

Definition strip (s : string) : string := rstrip (lstrip s).

(** Truth value of what [shutil.which] returns: [None] and the empty
    string are false. *)
Definition truthy (o : option string) : bool :=
  match o with
  | Some "" => false
  | Some _ => true
  | None => false
  end.

(** [x in [a, b, ...]] on strings. *)
Definition str_in (x : string) (l : list string) : bool :=
  existsb (String.eqb x) l.

(** ** The subprocess module *)

(** [subprocess.check_call(command, shell=True)] *)
Definition check_call (command : string) : M Z :=
  w <- ask ;;
  emit (EShell command) ;;
  match shell w command with
  | Exit 0 => ret 0%Z
  | Exit code => raise (CalledProcessError code (ShellCommand command))
  | SpawnFailed msg => raise (OSError msg)
  end.

(** [subprocess.check_output(argv, stderr=subprocess.STDOUT)] *)
Definition check_output (argv : list string) : M pybytes :=
  w <- ask ;;
  emit (ECheckOutput argv) ;;
  match version_query w argv with
  | (Exit 0, out) => ret out
  | (Exit code, _) => raise (CalledProcessError code (Argv argv))
  | (SpawnFailed msg, _) => raise (OSError msg)
  end.

(** [input(prompt)] *)
Definition input (prompt : string) : M string :=
  w <- ask ;;
  emit (EInput prompt) ;;
  match stdin w with
  | Some line => ret line
  | None => raise EOFError
  end.

Definition is_CalledProcessError (e : exn) : bool :=
  match e with
  | CalledProcessError _ _ => true
  | _ => false
  end.

(** Every exception of the model derives from [Exception]. *)
Definition is_Exception (e : exn) : bool := true.

(** ** The script *)

(** Lines 11-24.  The function only reads the environment ([shutil.which],
    [sys.executable]), so it is a function of the world. *)
Definition get_python_command (w : world) : string :=
  if truthy (which w "python3") then "python3"
  else if truthy (which w "python") then "python"
  else executable w.

(** Lines 26-32. *)
Definition run_command (command : string) : M bool :=
  try_except
    (check_call command ;; ret true)
    is_CalledProcessError
    (fun _ => ret false).

(** Lines 34-42. *)
Definition check_python : M bool :=
  try_except
    (w <- ask ;;
     version <- check_output [executable w; "--version"] ;;
     text <- lift (decode version) ;;
     print ("✓ Python found: " ++ strip text) ;;
     ret true)
    is_Exception
    (fun e =>
       w <- ask ;;
       print ("✗ Python not found: " ++ py_str w e) ;;
       ret false).

Definition packages : list string :=
  ["torch"; "transformers"; "Pillow"; "numpy"].

Definition install_methods : list (string * string) :=
  [("--user", "user directory");
   ("--break-system-packages", "system packages (with override)")].

(** The command of line 70. *)
Definition pip_install (python_cmd method_flag package : string) : string :=
  python_cmd ++ " -m pip install " ++ method_flag ++ " " ++ package.

(** Lines 68-75, the loop over the installation methods; its value is
    [installed] when the loop is left. *)
Fixpoint for_method (python_cmd package : string)
    (methods : list (string * string)) : M bool :=
  match methods with
  | [] => ret false
  | (method_flag, method_desc) :: rest =>
      leave <- try_except
                 (ok <- run_command (pip_install python_cmd method_flag package) ;;
                  if (ok : bool) then
                    print ("✓ " ++ package ++ " installed successfully (using "
                             ++ method_desc ++ ")") ;;
                    ret true                                   (* break *)
                  else ret false)
                 (fun _ => true)
                 (fun _ => ret false) ;;                       (* continue *)
      if (leave : bool) then ret true
      else for_method python_cmd package rest
  end.

(** Lines 64-85, the loop over the packages and the final [return True]. *)
Fixpoint for_package (python_cmd : string) (pkgs : list string) : M bool :=
  match pkgs with
  | [] => ret true
  | package :: rest =>
      print ("Installing " ++ package ++ "...") ;;
      installed <- for_method python_cmd package install_methods ;;
      if negb installed then
        print ("✗ Failed to install " ++ package ++ " with all methods") ;;
        print (nl ++ "You may need to create a virtual environment:") ;;
        print ("  " ++ python_cmd ++ " -m venv epub-env") ;;
        print "  source epub-env/bin/activate  # On macOS/Linux" ;;
        print ("  " ++ python_cmd ++ " -m pip install " ++ package) ;;
        ret false
      else for_package python_cmd rest
  end.

(** Lines 44-85. *)
Definition install_dependencies : M bool :=
  python_cmd <- asks get_python_command ;;
  print ("Using Python command: " ++ python_cmd) ;;
  print "Installing Python packages for image analysis..." ;;
  for_package python_cmd packages.

Definition tesseract_probe : string := "tesseract --version > /dev/null 2>&1".
Definition exiftool_probe : string := "exiftool -ver > /dev/null 2>&1".

(** Lines 87-115. *)
Definition check_optional_tools : M unit :=
  w <- ask ;;
  print (nl ++ "Checking optional tools:") ;;
  found <- run_command tesseract_probe ;;
  (if (found : bool) then
     print "✓ Tesseract OCR is available"
   else
     print "! Tesseract OCR not found. Install it for text extraction from images:" ;;
     if platform w =? "darwin" then
       print "  brew install tesseract"
     else if platform w =? "linux" then
       print "  sudo apt-get install tesseract-ocr  # Debian/Ubuntu" ;;
       print "  sudo yum install tesseract          # CentOS/RHEL"
     else
       print "  See: https://github.com/tesseract-ocr/tesseract") ;;
  found <- run_command exiftool_probe ;;
  (if (found : bool) then
     print "✓ ExifTool is available"
   else
     print "! ExifTool not found. Install it for image metadata extraction:" ;;
     if platform w =? "darwin" then
       print "  brew install exiftool"
     else if platform w =? "linux" then
       print "  sudo apt-get install libimage-exiftool-perl  # Debian/Ubuntu" ;;
       print "  sudo yum install perl-Image-ExifTool         # CentOS/RHEL"
     else
       print "  See: https://exiftool.org/").

Definition prompt : string := nl ++ "Do you want to proceed? (y/N): ".

(** Lines 117-168.  The [else] branch of line 147 returns, so lines
    161-168, which follow the [if] statement, continue its [then] branch. *)
Definition main : M bool :=
  python_cmd <- asks get_python_command ;;
  print "🖼️  EPUB Accessibility Fixer - Image Analysis Setup" ;;
  print (str_mul "=" 50) ;;
  ok <- check_python ;;
  if negb ok then
    print (nl ++ "Python is required but not found. Please install Python 3.7+ and try again.") ;;
    ret false
  else
    print (nl ++ "✓ Using Python: " ++ python_cmd) ;;
    print (nl ++ "This will install Python packages for AI-powered image analysis.") ;;
    print "This enables automatic generation of meaningful alt text based on image content." ;;
    print (nl ++ "Packages to be installed:") ;;
    print "- torch (PyTorch)" ;;
    print "- transformers (Hugging Face)" ;;
    print "- Pillow (PIL)" ;;
    print "- numpy" ;;
    line <- input prompt ;;
    let response := strip (lower line) in
    if negb (str_in response ["y"; "yes"]) then
      print "Setup cancelled." ;;
      ret false
    else
      installed <- install_dependencies ;;
      if (installed : bool) then
        print (nl ++ "✓ All Python packages installed successfully!") ;;
        print (nl ++ "Image analysis capabilities are now available.") ;;
        print "The alt text fixer will automatically use AI models to generate" ;;
        print "descriptive alt text based on actual image content." ;;
        check_optional_tools ;;
        print (nl ++ "🎉 Setup complete!") ;;
        print (nl ++ "Usage:") ;;
        print "The image analysis will be used automatically when fixing alt text." ;;
        print "No additional configuration is required." ;;
        ret true
      else
        print (nl ++ "✗ Some packages failed to install.") ;;
        print (nl ++ "For externally managed Python environments (like Homebrew), try:") ;;
        print (nl ++ "1. Using pipx (recommended):") ;;
        print "   brew install pipx" ;;
        print "   pipx install torch transformers Pillow numpy" ;;
        print (nl ++ "2. Using virtual environment:") ;;
        print ("   " ++ python_cmd ++ " -m venv epub-env") ;;
        print "   source epub-env/bin/activate" ;;
        print ("   " ++ python_cmd ++ " -m pip install torch transformers Pillow numpy") ;;
        print (nl ++ "3. Force install to user directory:") ;;
        print ("   " ++ python_cmd ++ " -m pip install --user torch transformers Pillow numpy") ;;
        ret false.

(** How the process ends: [sys.exit(code)] of line 172, or an exception
    nobody caught. *)
Inductive termination : Type :=
| SysExit (code : Z)
| Traceback (e : exn).

(** Lines 170-172. *)
Definition script (w : world) : list event * termination :=
  match main w with
  | (t, Ok success) => (t, SysExit (if success then 0 else 1)%Z)
  | (t, Raise e) => (t, Traceback e)
  end.

(** The status the parent process sees; the interpreter exits with 1
    after an uncaught exception. *)
Definition exit_status (t : termination) : Z :=
  match t with
  | SysExit code => code
  | Traceback _ => 1%Z
  end.

(** ** Vocabulary of the properties *)

(** A command name is available when [shutil.which] finds a path for it. *)
Definition available (w : world) (name : string) : Prop :=
  exists path, which w name = Some path /\ path <> "".

(** The version query ran, exited with status 0 and printed text. *)
Definition check_succeeds (w : world) : Prop :=
  exists text, version_query w [executable w; "--version"] = (Exit 0, Utf8 text).

(** The operator's line is accepted by the test of line 138. *)
Definition affirmative (line : string) : Prop :=
  strip (lower line) = "y" \/ strip (lower line) = "yes".

Definition confirms (w : world) : Prop :=
  exists line, stdin w = Some line /\ affirmative line.

Definition succeeded (r : os_result) : bool :=
  match r with
  | Exit 0 => true
  | _ => false
  end.

Definition user_local : string := "--user".
Definition override_system : string := "--break-system-packages".

(** The two commands the driver can issue for a package. *)
Definition user_command (w : world) (package : string) : string :=
  pip_install (get_python_command w) user_local package.

Definition override_command (w : world) (package : string) : string :=
  pip_install (get_python_command w) override_system package.

(** A package installs when one of the two commands for it exits with 0. *)
Definition installs (w : world) (package : string) : Prop :=
  shell w (user_command w package) = Exit 0 \/
  shell w (override_command w package) = Exit 0.

(** A package fails both strategies. *)
Definition fails_both (w : world) (package : string) : Prop :=
  shell w (user_command w package) <> Exit 0 /\
  shell w (override_command w package) <> Exit 0.

Definition setup_succeeds (w : world) : Prop :=
  check_succeeds w /\ confirms w /\ Forall (installs w) packages.

(** The shell commands of a trace, in order. *)
Fixpoint shell_commands (t : list event) : list string :=
  match t with
  | [] => []
  | EShell c :: rest => c :: shell_commands rest
  | _ :: rest => shell_commands rest
  end.

(** The lines printed in a trace, in order. *)
Fixpoint printed (t : list event) : list string :=
  match t with
  | [] => []
  | EPrint l :: rest => l :: printed rest
  | _ :: rest => printed rest
  end.

(** A byte that is an ASCII letter, and a string without any: such a
    string is what [lower] leaves alone. *)
Definition is_letter (c : ascii) : bool :=
  let n := nat_of_ascii c in
  (((65 <=? n) && (n <=? 90)) || ((97 <=? n) && (n <=? 122)))%nat.

Fixpoint caseless (s : string) : bool :=
  match s with
  | "" => true
  | String c rest => negb (is_letter c) && caseless rest
  end.

(** The response as the specification words it: trimmed, then
    lower-cased. *)
Definition trimmed_lowered (line : string) : string := lower (strip line).

(** What lines 78-82 print when a package has failed both strategies. *)
Definition venv_guidance (python_cmd package : string) : list string :=
  ["✗ Failed to install " ++ package ++ " with all methods";
   nl ++ "You may need to create a virtual environment:";
   "  " ++ python_cmd ++ " -m venv epub-env";
   "  source epub-env/bin/activate  # On macOS/Linux";
   "  " ++ python_cmd ++ " -m pip install " ++ package].

(** What lines 148-158 print when the installation driver has failed. *)
Definition failure_advice (python_cmd : string) : list string :=
  [nl ++ "✗ Some packages failed to install.";
   nl ++ "For externally managed Python environments (like Homebrew), try:";
   nl ++ "1. Using pipx (recommended):";
   "   brew install pipx";
   "   pipx install torch transformers Pillow numpy";
   nl ++ "2. Using virtual environment:";
   "   " ++ python_cmd ++ " -m venv epub-env";
   "   source epub-env/bin/activate";
   "   " ++ python_cmd ++ " -m pip install torch transformers Pillow numpy";
   nl ++ "3. Force install to user directory:";
   "   " ++ python_cmd ++ " -m pip install --user torch transformers Pillow numpy"].

(** What lines 121-122 print. *)
Definition banner : list string :=
  ["🖼️  EPUB Accessibility Fixer - Image Analysis Setup"; str_mul "=" 50].

(** What lines 128-135 print. *)
Definition announcement (python_cmd : string) : list string :=
  [nl ++ "✓ Using Python: " ++ python_cmd;
   nl ++ "This will install Python packages for AI-powered image analysis.";
   "This enables automatic generation of meaningful alt text based on image content.";
   nl ++ "Packages to be installed:";
   "- torch (PyTorch)";
   "- transformers (Hugging Face)";
   "- Pillow (PIL)";
   "- numpy"].

(** What lines 143-146 print. *)
Definition success_banner : list string :=
  [nl ++ "✓ All Python packages installed successfully!";
   nl ++ "Image analysis capabilities are now available.";
   "The alt text fixer will automatically use AI models to generate";
   "descriptive alt text based on actual image content."].

(** What lines 163-166 print. *)
Definition closing : list string :=
  [nl ++ "🎉 Setup complete!";
   nl ++ "Usage:";
   "The image analysis will be used automatically when fixing alt text.";
   "No additional configuration is required."].

(** Everything [main] does up to and including the prompt, when the
    interpreter check passes. *)
Definition preamble (w : world) : list event :=
  (map EPrint banner ++ trace (check_python w)
     ++ map EPrint (announcement (get_python_command w))
     ++ [EInput prompt])%list.

(** The confirmation gate lets the run through: the installation driver
    runs right after the prompt. *)
Definition proceeds (w : world) : Prop :=
  exists post,
    trace (main w) = (preamble w ++ trace (install_dependencies w) ++ post)%list.

(** The confirmation gate stops the run: the cancellation message is the
    last thing done and the process exits with status 1. *)
Definition cancelled (w : world) : Prop :=
  script w = ((preamble w ++ [EPrint "Setup cancelled."])%list, SysExit 1).

(** Decision procedures for the vocabulary. *)
Definition check_passes (w : world) : bool :=
  match version_query w [executable w; "--version"] with
  | (Exit 0, Utf8 _) => true
  | _ => false
  end.

Definition installs_b (w : world) (package : string) : bool :=
  succeeded (shell w (user_command w package))
  || succeeded (shell w (override_command w package)).

(** Does a shell command install the given package? *)
Definition targets (w : world) (package command : string) : bool :=
  (command =? user_command w package) || (command =? override_command w package).

(** The installation commands of a trace that concern one package, in the
    order in which they were issued. *)
Definition attempts_for (w : world) (package : string) (t : list event) : list string :=
  filter (targets w package) (shell_commands t).

(** The installation commands the driver is expected to issue for a list
    of packages: per package the user-local command, then the override
    command if that failed, and nothing more once a package has failed
    both. *)
Fixpoint commands_issued (w : world) (pkgs : list string) : list string :=
  match pkgs with
  | [] => []
  | p :: rest =>
      if succeeded (shell w (user_command w p)) then
        user_command w p :: commands_issued w rest
      else if succeeded (shell w (override_command w p)) then
        user_command w p :: override_command w p :: commands_issued w rest
      else [user_command w p; override_command w p]
  end.

(** ** Vocabulary of the optional-tool probes *)

Inductive tool : Type := Tesseract | ExifTool.

Inductive bucket : Type := MacOS | Linux | OtherPlatform.

Definition bucket_of (platform_name : string) : bucket :=
  if platform_name =? "darwin" then MacOS
  else if platform_name =? "linux" then Linux
  else OtherPlatform.

Definition bucket_eqb (a b : bucket) : bool :=
  match a, b with
  | MacOS, MacOS | Linux, Linux | OtherPlatform, OtherPlatform => true
  | _, _ => false
  end.

Definition probe_of (t : tool) : string :=
  match t with
  | Tesseract => tesseract_probe
  | ExifTool => exiftool_probe
  end.

Definition found_line (t : tool) : string :=
  match t with
  | Tesseract => "✓ Tesseract OCR is available"
  | ExifTool => "✓ ExifTool is available"
  end.

Definition not_found_line (t : tool) : string :=
  match t with
  | Tesseract =>
      "! Tesseract OCR not found. Install it for text extraction from images:"
  | ExifTool =>
      "! ExifTool not found. Install it for image metadata extraction:"
  end.

(** The installation hints of a tool for a platform bucket. *)
Definition remediation_block (t : tool) (b : bucket) : list string :=
  match t, b with
  | Tesseract, MacOS => ["  brew install tesseract"]
  | Tesseract, Linux =>
      ["  sudo apt-get install tesseract-ocr  # Debian/Ubuntu";
       "  sudo yum install tesseract          # CentOS/RHEL"]
  | Tesseract, OtherPlatform =>
      ["  See: https://github.com/tesseract-ocr/tesseract"]
  | ExifTool, MacOS => ["  brew install exiftool"]
  | ExifTool, Linux =>
      ["  sudo apt-get install libimage-exiftool-perl  # Debian/Ubuntu";
       "  sudo yum install perl-Image-ExifTool         # CentOS/RHEL"]
  | ExifTool, OtherPlatform => ["  See: https://exiftool.org/"]
  end.

(** What is reported about a tool, given whether its probe found it. *)
Definition tool_report (t : tool) (present : bool) (b : bucket) : list string :=
  if present then [found_line t]
  else not_found_line t :: remediation_block t b.

(** The probe of a tool ran and exited with some status. *)
Definition probe_exits (w : world) (t : tool) : Prop :=
  exists code, shell w (probe_of t) = Exit code.

Definition probes_exit (w : world) : Prop :=
  probe_exits w Tesseract /\ probe_exits w ExifTool.

Definition present (w : world) (t : tool) : bool :=
  succeeded (shell w (probe_of t)).

(** The tool is absent: its probe exits with a non-zero status. *)
Definition absent (w : world) (t : tool) : Prop :=
  exists code, code <> 0%Z /\ shell w (probe_of t) = Exit code.

(** What a trace says in answer to a tool's probe: the lines printed
    between that command and the next interaction that is not a print. *)
Fixpoint after_command (command : string) (t : list event) : list event :=
  match t with
  | [] => []
  | EShell c :: rest => if c =? command then rest else after_command command rest
  | _ :: rest => after_command command rest
  end.

Fixpoint leading_prints (t : list event) : list string :=
  match t with
  | EPrint l :: rest => l :: leading_prints rest
  | _ => []
  end.

Definition reported (t : tool) (tr : list event) : list string :=
  leading_prints (after_command (probe_of t) tr).

(** The optional-tool section of [main] has been entered: its heading is
    printed or one of its probes is issued. *)
Definition probe_section_entered (t : list event) : Prop :=
  In (EPrint (nl ++ "Checking optional tools:")) t \/
  In (EShell tesseract_probe) t \/ In (EShell exiftool_probe) t.

(** Two environments that differ at most in what the two probes exit
    with. *)
Definition same_but_probes (w1 w2 : world) : Prop :=
  (forall name, which w1 name = which w2 name) /\
  executable w1 = executable w2 /\
  platform w1 = platform w2 /\
  (forall command,
     command <> tesseract_probe -> command <> exiftool_probe ->
     shell w1 command = shell w2 command) /\
  (forall argv, version_query w1 argv = version_query w2 argv) /\
  stdin w1 = stdin w2 /\
  (forall e, py_str w1 e = py_str w2 e).

(** The availability check spawns the command chosen by the resolver. *)
Definition invokes_chosen_interpreter (w : world) : Prop :=
  exists args,
    In (ECheckOutput (get_python_command w :: args)) (trace (check_python w)).

Fixpoint last_char (s : string) : option ascii :=
  match s with
  | "" => None
  | String c "" => Some c
  | String _ rest => last_char rest
  end.

Definition confirms_b (w : world) : bool :=
  match stdin w with
  | Some line => str_in (strip (lower line)) ["y"; "yes"]
  | None => false
  end.

(** An interaction that belongs to the optional-tool section only. *)
Definition probe_event (e : event) : bool :=
  match e with
  | EPrint l => l =? nl ++ "Checking optional tools:"
  | EShell c => (c =? tesseract_probe) || (c =? exiftool_probe)
  | _ => false
  end.

(** ** Sample environments *)

(** A Linux host with [python3] on the PATH where every command exits
    with 0 and the operator answers [y]. *)
Definition w_all_ok : world :=
  {| which := fun name =>
       if name =? "python3" then Some "/usr/bin/python3" else None;
     executable := "/usr/bin/python3.11";
     platform := "linux";
     shell := fun _ => Exit 0;
     version_query := fun _ => (Exit 0, Utf8 ("Python 3.11.4" ++ nl));
     stdin := Some "y";
     py_str := fun _ => "" |}.

(** The same host, except that both installation commands for the second
    package exit with 1. *)
Definition w_second_fails : world :=
  {| which := which w_all_ok;
     executable := executable w_all_ok;
     platform := platform w_all_ok;
     shell := fun command =>
       if command =? "python3 -m pip install --user transformers" then Exit 1
       else if command =? "python3 -m pip install --break-system-packages transformers"
       then Exit 1
       else Exit 0;
     version_query := version_query w_all_ok;
     stdin := stdin w_all_ok;
     py_str := py_str w_all_ok |}.

(** The script is run by the interpreter of a virtual environment while
    [python3] on the PATH is the system's. *)
Definition w_venv : world :=
  {| which := which w_all_ok;
     executable := "/opt/venv/bin/python";
     platform := platform w_all_ok;
     shell := shell w_all_ok;
     version_query := version_query w_all_ok;
     stdin := stdin w_all_ok;
     py_str := py_str w_all_ok |}.

(** A host like [w_all_ok] with the given platform name, on which the two
    probes exit with the given statuses. *)
Definition w_probes (platform_name : string) (tesseract_status exiftool_status : Z) : world :=
  {| which := which w_all_ok;
     executable := executable w_all_ok;
     platform := platform_name;
     shell := fun command =>
       if command =? tesseract_probe then Exit tesseract_status
       else if command =? exiftool_probe then Exit exiftool_status
       else Exit 0;
     version_query := version_query w_all_ok;
     stdin := stdin w_all_ok;
     py_str := py_str w_all_ok |}.

(** A host like [w_all_ok] whose operator types the given line. *)
Definition w_answer (line : string) : world :=
  {| which := which w_all_ok;
     executable := executable w_all_ok;
     platform := platform w_all_ok;
     shell := shell w_all_ok;
     version_query := version_query w_all_ok;
     stdin := Some line;
     py_str := py_str w_all_ok |}.

(** A host like [w_all_ok] on which the version query cannot be spawned. *)
Definition w_no_interpreter : world :=
  {| which := which w_all_ok;
     executable := executable w_all_ok;
     platform := platform w_all_ok;
     shell := shell w_all_ok;
     version_query := fun _ => (SpawnFailed "No such file or directory", NotUtf8);
     stdin := stdin w_all_ok;
     py_str := fun _ => "[Errno 2] No such file or directory" |}.

(** A host like [w_all_ok] whose PATH holds exactly the given commands. *)
Definition w_path (names : list string) : world :=
  {| which := fun name =>
       if str_in name names then Some ("/usr/bin/" ++ name) else None;
     executable := executable w_all_ok;
     platform := platform w_all_ok;
     shell := shell w_all_ok;
     version_query := version_query w_all_ok;
     stdin := stdin w_all_ok;
     py_str := py_str w_all_ok |}.

(** ** Vocabulary of the further properties *)

(** What the installation driver may do: print, or run the package
    manager's install command for a listed package with one of the two
    flags. *)
Definition installation_event (w : world) (e : event) : Prop :=
  match e with
  | EPrint _ => True
  | EShell c =>
      exists f p,
        In f [user_local; override_system] /\ In p packages /\
        c = pip_install (get_python_command w) f p
  | _ => False
  end.

(** How often a trace asks the operator, and how often it captures the
    output of a process. *)
Fixpoint count_inputs (t : list event) : nat :=
  match t with
  | [] => 0
  | EInput _ :: rest => S (count_inputs rest)
  | _ :: rest => count_inputs rest
  end.

Fixpoint count_queries (t : list event) : nat :=
  match t with
  | [] => 0
  | ECheckOutput _ :: rest => S (count_queries rest)
  | _ :: rest => count_queries rest
  end.

(** A print or a shell command. *)
Definition print_or_shell (e : event) : bool :=
  match e with
  | EPrint _ | EShell _ => true
  | _ => false
  end.

(** A host like [w_all_ok] whose standard input is closed. *)
Definition w_eof : world :=
  {| which := which w_all_ok;
     executable := executable w_all_ok;
     platform := platform w_all_ok;
     shell := shell w_all_ok;
     version_query := version_query w_all_ok;
     stdin := None;
     py_str := py_str w_all_ok |}.

(** A host like [w_all_ok] on which the given command cannot be spawned. *)
Definition w_unspawnable (command : string) : world :=
  {| which := which w_all_ok;
     executable := executable w_all_ok;
     platform := platform w_all_ok;
     shell := fun c =>
       if c =? command then SpawnFailed "Resource temporarily unavailable"
       else Exit 0;
     version_query := version_query w_all_ok;
     stdin := stdin w_all_ok;
     py_str := py_str w_all_ok |}.

(** A host like [w_all_ok] whose interpreter prints bytes that are not
    UTF-8 when asked for its version. *)
Definition w_undecodable : world :=
  {| which := which w_all_ok;
     executable := executable w_all_ok;
     platform := platform w_all_ok;
     shell := shell w_all_ok;
     version_query := fun _ => (Exit 0, NotUtf8);
     stdin := stdin w_all_ok;
     py_str := fun _ => "'utf-8' codec can't decode byte 0xff" |}.

(** A string made of whitespace characters only. *)
Definition blank (s : string) : Prop :=
  exists chars,
    Forall (fun ch => In ch whitespace) chars /\ s = String.concat "" chars.

(** The spellings of [y] and [yes] in either case. *)
Definition yes_spellings : list string :=
  ["y"; "Y"; "yes"; "yeS"; "yEs"; "yES"; "Yes"; "YeS"; "YEs"; "YES"].

(** * Properties *)

(** ** Running computations *)

Lemma succeeded_true (r : os_result) : succeeded r = true <-> r = Exit 0.
Proof.
  split.
  - destruct r as [[ | p | p] | msg]; simpl; congruence.
  - intros ->. reflexivity.
Qed.

Lemma succeeded_false (r : os_result) : succeeded r = false <-> r <> Exit 0.
Proof.
  rewrite <- succeeded_true. destruct (succeeded r); split; congruence.
Qed.

(** Unfolds the monad down to pairs of a trace and a result. *)
Ltac run_M :=
  cbv beta iota zeta delta
    [bind ret raise try_except ask asks emit print lift input
     check_output check_call].

(** What [run_command] does, by the fate of the shell. *)
Lemma run_command_run (command : string) (w : world) :
  run_command command w =
  ([EShell command],
   match shell w command with
   | Exit code => Ok (code =? 0)%Z
   | SpawnFailed msg => Raise (OSError msg)
   end).
Proof.
  unfold run_command, try_except, check_call, bind, ask, emit. simpl.
  destruct (shell w command) as [[ | p | p] | msg]; reflexivity.
Qed.

(** ** The interpreter resolver *)

Lemma truthy_available (w : world) (name : string) :
  truthy (which w name) = true <-> available w name.
Proof.
  unfold available. split.
  - destruct (which w name) as [[ | c s] | ] eqn:E; simpl; try discriminate.
    intros _. exists (String c s). split; [reflexivity | discriminate].
  - intros (path & -> & Hne). destruct path; [congruence | reflexivity].
Qed.

(** C6: the resolver always yields a command, and it is [python3] when
    that is available, else [python] when that is available, else the
    running interpreter's own path. *)
Theorem get_python_command_preference (w : world) :
  (available w "python3" -> get_python_command w = "python3") /\
  (~ available w "python3" -> available w "python" ->
   get_python_command w = "python") /\
  (~ available w "python3" -> ~ available w "python" ->
   get_python_command w = executable w) /\
  (exists command,
     get_python_command w = command /\
     In command ["python3"; "python"; executable w]).
Proof.
  unfold get_python_command.
  destruct (truthy (which w "python3")) eqn:E3;
    destruct (truthy (which w "python")) eqn:E2.
  all: repeat split; intros;
    repeat match goal with
    | H : truthy _ = true |- _ => apply truthy_available in H
    | H : truthy _ = false |- _ =>
        apply not_true_iff_false in H; rewrite truthy_available in H
    end;
    try tauto; try (eexists; split; [reflexivity | simpl; tauto]).
Qed.

(** C6 on three hosts: both commands on the PATH, only [python], neither. *)
Lemma get_python_command_preference_witness :
  (available (w_path ["python"; "python3"]) "python3" /\
   available (w_path ["python"; "python3"]) "python" /\
   get_python_command (w_path ["python"; "python3"]) = "python3") /\
  (~ available (w_path ["python"]) "python3" /\
   available (w_path ["python"]) "python" /\
   get_python_command (w_path ["python"]) = "python") /\
  (~ available (w_path []) "python3" /\ ~ available (w_path []) "python" /\
   get_python_command (w_path []) = "/usr/bin/python3.11").
Proof.
  assert (Hyes : forall names name,
            str_in name names = true -> available (w_path names) name).
  { intros names name H. exists ("/usr/bin/" ++ name). simpl. rewrite H.
    split; [reflexivity | discriminate]. }
  assert (Hno : forall names name,
            str_in name names = false -> ~ available (w_path names) name).
  { intros names name H (path & E & _). simpl in E. rewrite H in E.
    discriminate E. }
  split; [ | split].
  - split; [now apply Hyes | ]. split; [now apply Hyes | ].
    apply (proj1 (get_python_command_preference (w_path ["python"; "python3"]))).
    now apply Hyes.
  - split; [now apply Hno | ]. split; [now apply Hyes | ].
    apply (proj1 (proj2 (get_python_command_preference (w_path ["python"])))).
    + now apply Hno.
    + now apply Hyes.
  - split; [now apply Hno | ]. split; [now apply Hno | ].
    apply (proj1 (proj2 (proj2 (get_python_command_preference (w_path []))))).
    + now apply Hno.
    + now apply Hno.
Defined.

(** ** The shell-command helper *)

(** C10: whatever status the command exits with, [run_command] returns a
    boolean, [True] exactly for status 0; and it never raises
    [CalledProcessError]. *)
Theorem run_command_boolean (command : string) (w : world) :
  (forall code, shell w command = Exit code ->
     outcome (run_command command w) = Ok (code =? 0)%Z) /\
  (shell w command = Exit 0 -> outcome (run_command command w) = Ok true) /\
  (forall code, code <> 0%Z -> shell w command = Exit code ->
     outcome (run_command command w) = Ok false) /\
  (forall e, outcome (run_command command w) = Raise e ->
     is_CalledProcessError e = false).
Proof.
  rewrite run_command_run. unfold outcome. simpl.
  repeat split.
  - intros code ->. reflexivity.
  - intros ->. reflexivity.
  - intros code Hne ->. destruct code; [congruence | reflexivity | reflexivity].
  - intros e. destruct (shell w command); intros H; inversion H. reflexivity.
Qed.

(** C10 on a command that exits with 1 and on one that exits with 0. *)
Lemma run_command_boolean_witness :
  shell w_second_fails "python3 -m pip install --user transformers" = Exit 1 /\
  outcome (run_command "python3 -m pip install --user transformers" w_second_fails)
  = Ok false /\
  shell w_second_fails "python3 -m pip install --user torch" = Exit 0 /\
  outcome (run_command "python3 -m pip install --user torch" w_second_fails)
  = Ok true.
Proof.
  split; [reflexivity | ]. split.
  - apply (proj1 (proj2 (proj2
             (run_command_boolean "python3 -m pip install --user transformers"
                w_second_fails))) 1%Z); [discriminate | reflexivity].
  - split; [reflexivity | ].
    apply (proj1 (proj2
             (run_command_boolean "python3 -m pip install --user torch"
                w_second_fails))).
    reflexivity.
Defined.

(** ** Strings *)

Lemma string_strong_ind (P : string -> Prop) :
  (forall s, (forall t, String.length t < String.length s -> P t) -> P s) ->
  forall s, P s.
Proof.
  intros step s.
  assert (H : forall n t, String.length t < n -> P t).
  { induction n as [ | n IH]; intros t Ht; [lia | ].
    apply step. intros u Hu. apply IH. lia. }
  apply (H (S (String.length s))). lia.
Qed.

(** [lower] moves no byte onto or off a byte that is not a letter. *)
Lemma lower_char_eqb (c k : ascii) :
  is_letter k = false -> Ascii.eqb (lower_char c) k = Ascii.eqb c k.
Proof.
  intros Hk.
  destruct c as [[] [] [] [] [] [] [] []]; try reflexivity;
    destruct k as [[] [] [] [] [] [] [] []];
    first [discriminate Hk | reflexivity].
Qed.

Lemma lower_eqb (s p : string) :
  caseless p = true -> (lower s =? p) = (s =? p).
Proof.
  revert p. induction s as [ | c s IH]; intros [ | k p] Hp; try reflexivity.
  simpl in Hp. apply andb_true_iff in Hp as [Hk Hp].
  apply negb_true_iff in Hk.
  simpl. rewrite lower_char_eqb by exact Hk. now rewrite IH.
Qed.

Lemma whitespace_caseless : forallb caseless whitespace = true.
Proof. reflexivity. Qed.

(** Lower-casing neither makes nor unmakes a whitespace character. *)
Lemma is_space_lower (ch : string) : is_space (lower ch) = is_space ch.
Proof.
  unfold is_space. pose proof whitespace_caseless as H.
  induction whitespace as [ | p l IH]; [reflexivity | ].
  simpl in H. apply andb_true_iff in H as [Hp Hl].
  simpl. now rewrite lower_eqb, IH.
Qed.

Lemma lower_empty (s : string) : (lower s =? "") = (s =? "").
Proof.
  now destruct s.
Qed.

Lemma lower_lstrip (s : string) : lower (lstrip s) = lstrip (lower s).
Proof.
  induction s as [s IH] using string_strong_ind.
  destruct s as [ | a r1]; [reflexivity | ].
  pose proof (is_space_lower (String a "")) as E1. cbn [lower] in E1.
  cbn [lstrip lower]. rewrite E1.
  destruct (is_space (String a "")); [apply IH; simpl; lia | ].
  destruct r1 as [ | b r2]; [reflexivity | ].
  pose proof (is_space_lower (String a (String b ""))) as E2. cbn [lower] in E2.
  cbn [lower]. rewrite E2.
  destruct (is_space (String a (String b ""))); [apply IH; simpl; lia | ].
  destruct r2 as [ | c r3]; [reflexivity | ].
  pose proof (is_space_lower (String a (String b (String c "")))) as E3.
  cbn [lower] in E3.
  cbn [lower]. rewrite E3.
  destruct (is_space (String a (String b (String c ""))));
    [apply IH; simpl; lia | reflexivity].
Qed.

Lemma rstrip_cons (a : ascii) (rest : string) :
  rstrip (String a rest) =
  if lstrip (String a rest) =? "" then "" else String a (rstrip rest).
Proof. reflexivity. Qed.

Lemma lower_rstrip (s : string) : lower (rstrip s) = rstrip (lower s).
Proof.
  induction s as [ | a s IH]; [reflexivity | ].
  change (lower (String a s)) with (String (lower_char a) (lower s)).
  rewrite !rstrip_cons.
  change (String (lower_char a) (lower s)) with (lower (String a s)).
  rewrite <- lower_lstrip, lower_empty.
  destruct (lstrip (String a s) =? ""); [reflexivity | ].
  cbn [lower]. now rewrite IH.
Qed.

(** Trimming and lower-casing commute, so the order in which the source
    and the specification apply them does not matter. *)
Lemma lower_strip_commute (s : string) : strip (lower s) = trimmed_lowered s.
Proof.
  unfold trimmed_lowered, strip. now rewrite lower_rstrip, lower_lstrip.
Qed.

Lemma str_in_affirmative (line : string) :
  str_in (strip (lower line)) ["y"; "yes"] = true <-> affirmative line.
Proof.
  unfold str_in, affirmative. simpl.
  rewrite orb_false_r, orb_true_iff, !String.eqb_eq. tauto.
Qed.

(** ** The availability check *)

Lemma check_passes_spec (w : world) : check_passes w = true <-> check_succeeds w.
Proof.
  unfold check_passes, check_succeeds.
  destruct (version_query w [executable w; "--version"])
    as [[[ | p | p] | msg] [text | ]]; split;
    try discriminate; try (intros (text' & H); discriminate H).
  - intros _. now exists text.
  - reflexivity.
Qed.

(** [check_python] runs one process, prints one line and never raises. *)
Lemma check_python_run (w : world) :
  exists line,
    check_python w =
    ([ECheckOutput [executable w; "--version"]; EPrint line], Ok (check_passes w)).
Proof.
  unfold check_python, check_passes. run_M.
  destruct (version_query w [executable w; "--version"])
    as [[[ | p | p] | msg] [text | ]]; simpl; eexists; reflexivity.
Qed.

Lemma check_python_outcome (w : world) :
  outcome (check_python w) = Ok (check_passes w).
Proof.
  destruct (check_python_run w) as (line & ->). reflexivity.
Qed.

Lemma check_python_eta (w : world) :
  check_python w = (trace (check_python w), Ok (check_passes w)).
Proof.
  destruct (check_python_run w) as (line & ->). reflexivity.
Qed.

(** ** The ways through [main] that stop before the installation driver *)

Lemma main_check_failed (w : world) :
  check_passes w = false ->
  main w =
  ((map EPrint banner ++ trace (check_python w)
      ++ [EPrint (nl ++ "Python is required but not found. Please install Python 3.7+ and try again.")])%list,
   Ok false).
Proof.
  intros H. unfold main. run_M.
  rewrite (check_python_eta w), H. reflexivity.
Qed.

Lemma main_eof (w : world) :
  check_passes w = true -> stdin w = None ->
  main w = (preamble w, Raise EOFError).
Proof.
  intros H Hin. unfold main, preamble. run_M.
  rewrite (check_python_eta w), H. cbn [negb]. cbv beta iota zeta.
  rewrite Hin. reflexivity.
Qed.

Lemma main_cancelled (w : world) (line : string) :
  check_passes w = true -> stdin w = Some line ->
  str_in (strip (lower line)) ["y"; "yes"] = false ->
  main w = ((preamble w ++ [EPrint "Setup cancelled."])%list, Ok false).
Proof.
  intros H Hin Hno. unfold main, preamble. run_M.
  rewrite (check_python_eta w), H. cbn [negb]. cbv beta iota zeta.
  rewrite Hin. cbv beta iota zeta. rewrite Hno. simpl.
  rewrite <- ?app_assoc. reflexivity.
Qed.

(** ** The installation driver *)

Lemma shell_commands_app (t1 t2 : list event) :
  shell_commands (t1 ++ t2) = (shell_commands t1 ++ shell_commands t2)%list.
Proof.
  induction t1 as [ | [l | c | argv | p] t1 IH]; simpl; congruence.
Qed.

Lemma shell_commands_prints (lines : list string) :
  shell_commands (map EPrint lines) = [].
Proof.
  induction lines; simpl; auto.
Qed.

Lemma installs_b_spec (w : world) (p : string) :
  installs_b w p = true <-> installs w p.
Proof.
  unfold installs_b, installs. now rewrite orb_true_iff, !succeeded_true.
Qed.

Lemma installs_b_false (w : world) (p : string) :
  installs_b w p = false <-> fails_both w p.
Proof.
  unfold installs_b, fails_both. now rewrite orb_false_iff, !succeeded_false.
Qed.

(** The inner loop on the two strategies: three ways through. *)
Lemma for_method_run (w : world) (p : string) :
  for_method (get_python_command w) p install_methods w =
  if succeeded (shell w (user_command w p)) then
    ([EShell (user_command w p);
      EPrint ("✓ " ++ p ++ " installed successfully (using user directory)")],
     Ok true)
  else if succeeded (shell w (override_command w p)) then
    ([EShell (user_command w p); EShell (override_command w p);
      EPrint ("✓ " ++ p ++ " installed successfully (using system packages (with override))")],
     Ok true)
  else
    ([EShell (user_command w p); EShell (override_command w p)], Ok false).
Proof.
  unfold install_methods. cbn [for_method]. run_M.
  rewrite run_command_run.
  unfold user_command, override_command, user_local, override_system.
  destruct (shell w (pip_install (get_python_command w) "--user" p))
    as [[ | c | c] | msg]; cbn [succeeded Z.eqb];
    cbv beta iota zeta; try reflexivity;
    rewrite run_command_run;
    destruct (shell w (pip_install (get_python_command w) "--break-system-packages" p))
      as [[ | c' | c'] | msg']; reflexivity.
Qed.

Lemma for_method_outcome (w : world) (p : string) :
  outcome (for_method (get_python_command w) p install_methods w) =
  Ok (installs_b w p).
Proof.
  rewrite for_method_run. unfold installs_b.
  destruct (succeeded (shell w (user_command w p)));
    destruct (succeeded (shell w (override_command w p))); reflexivity.
Qed.

Lemma for_method_shell (w : world) (p : string) :
  shell_commands (trace (for_method (get_python_command w) p install_methods w)) =
  if succeeded (shell w (user_command w p)) then [user_command w p]
  else [user_command w p; override_command w p].
Proof.
  rewrite for_method_run.
  destruct (succeeded (shell w (user_command w p)));
    destruct (succeeded (shell w (override_command w p))); reflexivity.
Qed.

(** One turn of the outer loop. *)
Lemma for_package_cons (w : world) (p : string) (rest : list string) :
  for_package (get_python_command w) (p :: rest) w =
  let attempt := trace (for_method (get_python_command w) p install_methods w) in
  if installs_b w p then
    ((EPrint ("Installing " ++ p ++ "...") :: attempt
        ++ trace (for_package (get_python_command w) rest w))%list,
     outcome (for_package (get_python_command w) rest w))
  else
    ((EPrint ("Installing " ++ p ++ "...") :: attempt
        ++ map EPrint (venv_guidance (get_python_command w) p))%list,
     Ok false).
Proof.
  cbn [for_package]. run_M.
  pose proof (for_method_outcome w p) as Ho. unfold outcome in Ho.
  destruct (for_method (get_python_command w) p install_methods w) as [t r].
  simpl in Ho. subst r. cbv zeta. cbn [trace fst].
  destruct (installs_b w p); cbn [negb].
  - destruct (for_package (get_python_command w) rest w). reflexivity.
  - reflexivity.
Qed.

Lemma for_package_outcome (w : world) (pkgs : list string) :
  outcome (for_package (get_python_command w) pkgs w) =
  Ok (forallb (installs_b w) pkgs).
Proof.
  induction pkgs as [ | p rest IH]; [reflexivity | ].
  rewrite for_package_cons. cbv zeta. simpl forallb.
  destruct (installs_b w p); [exact IH | reflexivity].
Qed.

Lemma for_package_shell (w : world) (pkgs : list string) :
  shell_commands (trace (for_package (get_python_command w) pkgs w)) =
  commands_issued w pkgs.
Proof.
  induction pkgs as [ | p rest IH]; [reflexivity | ].
  rewrite for_package_cons. cbv zeta.
  pose proof (for_method_shell w p) as Hs.
  unfold installs_b.
  cbn [commands_issued].
  destruct (succeeded (shell w (user_command w p)));
    [ | destruct (succeeded (shell w (override_command w p)))];
    cbn [orb trace fst shell_commands];
    rewrite shell_commands_app, Hs, ?IH, ?shell_commands_prints; reflexivity.
Qed.

Lemma install_dependencies_run (w : world) :
  install_dependencies w =
  ((EPrint ("Using Python command: " ++ get_python_command w)
      :: EPrint "Installing Python packages for image analysis..."
      :: trace (for_package (get_python_command w) packages w))%list,
   Ok (forallb (installs_b w) packages)).
Proof.
  unfold install_dependencies. run_M.
  pose proof (for_package_outcome w packages) as Ho. unfold outcome in Ho.
  destruct (for_package (get_python_command w) packages w) as [t r].
  simpl in Ho. subst r. reflexivity.
Qed.

(** *** Telling the installation commands apart *)

Lemma append_inj_l (a b c : string) : a ++ b = a ++ c -> b = c.
Proof.
  induction a as [ | x a IH]; simpl; intros H; [exact H | ].
  injection H as H. auto.
Qed.

(** The command determines the package and the strategy. *)
Lemma pip_install_inj (cmd f f' p q : string) :
  In f [user_local; override_system] ->
  In f' [user_local; override_system] ->
  pip_install cmd f p = pip_install cmd f' q -> f = f' /\ p = q.
Proof.
  unfold pip_install. intros Hf Hf' H. apply append_inj_l in H.
  simpl in Hf, Hf'.
  destruct Hf as [<- | [<- | []]]; destruct Hf' as [<- | [<- | []]];
    simpl in H; try discriminate H.
  all: split; [reflexivity | ]; injection H as H; exact H.
Qed.

Lemma targets_self (w : world) (p : string) :
  targets w p (user_command w p) = true /\
  targets w p (override_command w p) = true.
Proof.
  unfold targets. rewrite !String.eqb_refl, orb_true_r. auto.
Qed.

Lemma targets_other (w : world) (p q : string) :
  p <> q ->
  targets w q (user_command w p) = false /\
  targets w q (override_command w p) = false.
Proof.
  intros Hne. unfold targets, user_command, override_command.
  split; apply orb_false_iff; split; apply String.eqb_neq; intros H;
    apply pip_install_inj in H; simpl; tauto.
Qed.

Lemma attempts_absent (w : world) (q : string) (pkgs : list string) :
  ~ In q pkgs -> filter (targets w q) (commands_issued w pkgs) = [].
Proof.
  induction pkgs as [ | p rest IH]; intros Hq; [reflexivity | ].
  simpl in Hq. assert (Hne : p <> q) by tauto.
  destruct (targets_other w p q Hne) as [Hu Ho].
  cbn [commands_issued].
  destruct (succeeded (shell w (user_command w p)));
    [ | destruct (succeeded (shell w (override_command w p)))];
    cbn [filter]; rewrite Hu, ?Ho, ?IH; tauto.
Qed.

Lemma commands_issued_app (w : world) (done rest : list string) :
  Forall (installs w) done ->
  commands_issued w (done ++ rest) =
  (commands_issued w done ++ commands_issued w rest)%list.
Proof.
  induction 1 as [ | p done Hp _ IH]; [reflexivity | ].
  apply installs_b_spec in Hp. unfold installs_b in Hp.
  cbn [commands_issued app].
  destruct (succeeded (shell w (user_command w p)));
    [ | destruct (succeeded (shell w (override_command w p)))];
    try discriminate Hp; rewrite IH; reflexivity.
Qed.

(** The commands issued for a package that the driver reaches. *)
Lemma attempts_reached (w : world) (done todo : list string) (p : string) :
  NoDup (done ++ p :: todo) -> Forall (installs w) done ->
  filter (targets w p) (commands_issued w (done ++ p :: todo)) =
  if succeeded (shell w (user_command w p)) then [user_command w p]
  else [user_command w p; override_command w p].
Proof.
  intros Hnd Hdone.
  assert (Hp : ~ In p done /\ ~ In p todo).
  { apply NoDup_remove_2 in Hnd. rewrite in_app_iff in Hnd. tauto. }
  rewrite commands_issued_app, filter_app, attempts_absent by tauto.
  destruct (targets_self w p) as [Hu Ho].
  cbn [commands_issued app].
  destruct (succeeded (shell w (user_command w p)));
    [ | destruct (succeeded (shell w (override_command w p)))];
    cbn [filter]; rewrite Hu, ?Ho, ?attempts_absent by tauto; reflexivity.
Qed.

(** Nothing is issued for the packages that follow one that failed both
    strategies. *)
Lemma attempts_after_failure (w : world) (done todo : list string) (p q : string) :
  NoDup (done ++ p :: todo) -> Forall (installs w) done ->
  fails_both w p -> In q todo ->
  filter (targets w q) (commands_issued w (done ++ p :: todo)) = [].
Proof.
  intros Hnd Hdone Hfail Hq.
  assert (Hne : p <> q /\ ~ In q done).
  { split.
    - intros ->. apply NoDup_remove_2 in Hnd. rewrite in_app_iff in Hnd. tauto.
    - intros Hin. apply NoDup_app_remove_r in Hnd as Hd.
      clear Hfail Hdone. induction done as [ | d done IH]; [contradiction | ].
      simpl in Hnd. inversion Hnd as [ | ? ? Hnot Hnd']; subst.
      destruct Hin as [-> | Hin].
      + apply Hnot. rewrite in_app_iff. right. now right.
      + apply IH; auto. now apply NoDup_app_remove_r in Hnd'. }
  rewrite commands_issued_app, filter_app, attempts_absent by tauto.
  apply installs_b_false in Hfail. unfold installs_b in Hfail.
  apply orb_false_iff in Hfail as [Hu Ho].
  destruct (targets_other w p q (proj1 Hne)) as [Tu To].
  cbn [commands_issued app]. rewrite Hu, Ho. cbn [filter]. now rewrite Tu, To.
Qed.

Lemma for_package_abort (w : world) (done todo : list string) (p : string) :
  Forall (installs w) done -> fails_both w p ->
  exists pre,
    trace (for_package (get_python_command w) (done ++ p :: todo) w) =
    (pre ++ map EPrint (venv_guidance (get_python_command w) p))%list.
Proof.
  intros Hdone Hfail. induction Hdone as [ | d done Hd _ IH].
  - cbn [app]. rewrite for_package_cons. cbv zeta.
    apply installs_b_false in Hfail. rewrite Hfail. cbn [trace fst].
    eexists (_ :: _). reflexivity.
  - cbn [app]. rewrite for_package_cons. cbv zeta.
    apply installs_b_spec in Hd. rewrite Hd. cbn [trace fst].
    destruct IH as (pre & ->).
    eexists (_ :: _ ++ _)%list. cbn [app]. now rewrite <- app_assoc.
Qed.

Lemma packages_NoDup : NoDup packages.
Proof.
  unfold packages. repeat constructor; simpl; intuition discriminate.
Qed.

(** C3: for a package the driver reaches (every earlier package of the
    list installed), the user-local command is issued first and alone if
    it exits with 0, and is followed by the override command otherwise;
    if both fail, the driver prints the virtual-environment guidance as
    the last thing it does, returns [False] and issues no command for
    any later package.  Over the whole list the commands come in the
    order of the packages. *)
Theorem install_dependencies_driver (w : world) (done todo : list string) (p : string) :
  packages = (done ++ p :: todo)%list ->
  Forall (installs w) done ->
  let t := trace (install_dependencies w) in
  (shell w (user_command w p) = Exit 0 ->
   attempts_for w p t = [user_command w p]) /\
  (shell w (user_command w p) <> Exit 0 ->
   attempts_for w p t = [user_command w p; override_command w p]) /\
  (fails_both w p ->
   outcome (install_dependencies w) = Ok false /\
   (exists pre,
      t = (pre ++ map EPrint (venv_guidance (get_python_command w) p))%list) /\
   (forall q, In q todo -> attempts_for w q t = [])) /\
  shell_commands t = commands_issued w packages.
Proof.
  intros Hsplit Hdone t.
  assert (Hnd : NoDup (done ++ p :: todo)%list)
    by (rewrite <- Hsplit; exact packages_NoDup).
  assert (Hcmds : shell_commands t = commands_issued w (done ++ p :: todo)%list).
  { subst t. rewrite install_dependencies_run. cbn [trace fst shell_commands].
    rewrite for_package_shell. now rewrite Hsplit. }
  unfold attempts_for. rewrite Hcmds.
  split; [ | split; [ | split; [ | now rewrite Hsplit]]];
    [ | | intros H; split; [ | split]].
  - intros H. rewrite attempts_reached by assumption.
    apply succeeded_true in H. now rewrite H.
  - intros H. rewrite attempts_reached by assumption.
    apply succeeded_false in H. now rewrite H.
  - rewrite install_dependencies_run. unfold outcome. cbn [snd].
    rewrite Hsplit, forallb_app. cbn [forallb].
    apply installs_b_false in H. rewrite H. now rewrite andb_false_r.
  - subst t. rewrite install_dependencies_run. cbn [trace fst].
    rewrite Hsplit.
    destruct (for_package_abort w done todo p Hdone H) as (pre & ->).
    eexists (_ :: _ :: _)%list. reflexivity.
  - intros q Hq. now apply attempts_after_failure.
Qed.

(** C3 on the host where the second package fails both strategies: both
    commands are tried for it, in order, and nothing for the third. *)
Lemma install_dependencies_driver_witness :
  packages = (["torch"] ++ "transformers" :: ["Pillow"; "numpy"])%list /\
  Forall (installs w_second_fails) ["torch"] /\
  fails_both w_second_fails "transformers" /\
  attempts_for w_second_fails "transformers"
    (trace (install_dependencies w_second_fails)) =
  ["python3 -m pip install --user transformers";
   "python3 -m pip install --break-system-packages transformers"] /\
  outcome (install_dependencies w_second_fails) = Ok false /\
  attempts_for w_second_fails "Pillow"
    (trace (install_dependencies w_second_fails)) = [].
Proof.
  assert (Hdone : Forall (installs w_second_fails) ["torch"])
    by (constructor; [left; reflexivity | constructor]).
  assert (Hfail : fails_both w_second_fails "transformers")
    by (split; discriminate).
  pose proof (install_dependencies_driver w_second_fails
                ["torch"] ["Pillow"; "numpy"] "transformers" eq_refl Hdone)
    as (_ & Hsecond & Habort & _).
  destruct (Habort Hfail) as (Hout & _ & Hlater).
  split; [reflexivity | ]. split; [exact Hdone | ]. split; [exact Hfail | ].
  split; [apply Hsecond; discriminate | ].
  split; [exact Hout | ].
  apply Hlater. simpl. auto.
Defined.

(** ** The two ways through [main] after the installation driver *)

Lemma main_install_failed (w : world) (line : string) :
  check_passes w = true -> stdin w = Some line ->
  str_in (strip (lower line)) ["y"; "yes"] = true ->
  forallb (installs_b w) packages = false ->
  main w =
  ((preamble w ++ trace (install_dependencies w)
      ++ map EPrint (failure_advice (get_python_command w)))%list,
   Ok false).
Proof.
  intros H Hin Hyes Hfail. unfold main, preamble. run_M.
  rewrite (check_python_eta w), H. cbn [negb]. cbv beta iota zeta.
  rewrite Hin. cbv beta iota zeta. rewrite Hyes. cbn [negb]. cbv beta iota zeta.
  rewrite install_dependencies_run, Hfail.
  cbn [trace fst]. simpl. rewrite <- ?app_assoc. reflexivity.
Qed.

Lemma main_installed (w : world) (line : string) :
  check_passes w = true -> stdin w = Some line ->
  str_in (strip (lower line)) ["y"; "yes"] = true ->
  forallb (installs_b w) packages = true ->
  main w =
  ((preamble w ++ trace (install_dependencies w)
      ++ map EPrint success_banner
      ++ trace (check_optional_tools w)
      ++ match outcome (check_optional_tools w) with
         | Ok _ => map EPrint closing
         | Raise _ => []
         end)%list,
   match outcome (check_optional_tools w) with
   | Ok _ => Ok true
   | Raise e => Raise e
   end).
Proof.
  intros H Hin Hyes Hall. unfold main, preamble. run_M.
  rewrite (check_python_eta w), H. cbn [negb]. cbv beta iota zeta.
  rewrite Hin. cbv beta iota zeta. rewrite Hyes. cbn [negb]. cbv beta iota zeta.
  rewrite install_dependencies_run, Hall.
  destruct (check_optional_tools w) as [t [[] | e]];
    cbn [trace outcome fst snd]; simpl; rewrite <- ?app_assoc; simpl;
    rewrite <- ?app_assoc, ?app_nil_r; reflexivity.
Qed.

(** ** The optional-tool probes *)

Lemma check_optional_tools_run (w : world) (c1 c2 : Z) :
  shell w tesseract_probe = Exit c1 ->
  shell w exiftool_probe = Exit c2 ->
  check_optional_tools w =
  ((EPrint (nl ++ "Checking optional tools:")
      :: EShell tesseract_probe
      :: map EPrint (tool_report Tesseract (c1 =? 0)%Z (bucket_of (platform w)))
      ++ EShell exiftool_probe
      :: map EPrint (tool_report ExifTool (c2 =? 0)%Z (bucket_of (platform w))))%list,
   Ok tt).
Proof.
  intros H1 H2. unfold check_optional_tools. run_M.
  rewrite !run_command_run, H1, H2. unfold bucket_of.
  destruct (c1 =? 0)%Z; destruct (c2 =? 0)%Z;
    destruct (platform w =? "darwin"); destruct (platform w =? "linux");
    reflexivity.
Qed.

Lemma present_exit (w : world) (t : tool) (code : Z) :
  shell w (probe_of t) = Exit code -> present w t = (code =? 0)%Z.
Proof.
  unfold present. intros ->. destruct code; reflexivity.
Qed.

(** The section in terms of the tools' presence. *)
Lemma check_optional_tools_report (w : world) :
  probes_exit w ->
  check_optional_tools w =
  ((EPrint (nl ++ "Checking optional tools:")
      :: EShell tesseract_probe
      :: map EPrint (tool_report Tesseract (present w Tesseract) (bucket_of (platform w)))
      ++ EShell exiftool_probe
      :: map EPrint (tool_report ExifTool (present w ExifTool) (bucket_of (platform w))))%list,
   Ok tt).
Proof.
  intros [[c1 H1] [c2 H2]].
  rewrite (present_exit w Tesseract c1 H1), (present_exit w ExifTool c2 H2).
  now apply check_optional_tools_run.
Qed.

Lemma absent_not_present (w : world) (t : tool) :
  absent w t -> present w t = false.
Proof.
  intros (code & Hne & H). unfold present. rewrite H.
  destruct code; [congruence | reflexivity | reflexivity].
Qed.

(** C8: when a tool is absent, the section prints the not-found line of
    that tool followed by the hints of the current platform's bucket;
    every line of that block is printed exactly once, and no line of a
    block of either tool for the other two buckets is printed at all. *)
Theorem remediation_block_matches_platform (w : world) (t : tool) :
  probes_exit w -> absent w t ->
  let lines := printed (trace (check_optional_tools w)) in
  let here := bucket_of (platform w) in
  (exists pre post,
     lines = (pre ++ not_found_line t :: remediation_block t here ++ post)%list) /\
  (forall l, In l (remediation_block t here) ->
     count_occ string_dec lines l = 1) /\
  (forall t' b l, bucket_eqb b here = false -> In l (remediation_block t' b) ->
     count_occ string_dec lines l = 0).
Proof.
  intros Hexit Habs lines here. subst lines here.
  apply absent_not_present in Habs.
  rewrite (check_optional_tools_report w Hexit).
  set (here := bucket_of (platform w)) in *.
  split; [ | split].
  - exists (match t with
            | Tesseract => [nl ++ "Checking optional tools:"]
            | ExifTool =>
                (nl ++ "Checking optional tools:")
                  :: tool_report Tesseract (present w Tesseract) here
            end),
           (match t with
            | Tesseract => tool_report ExifTool (present w ExifTool) here
            | ExifTool => []
            end).
    destruct t; rewrite Habs;
      [destruct (present w ExifTool) | destruct (present w Tesseract)];
      destruct here; reflexivity.
  - intros l Hl.
    destruct t; rewrite Habs;
      [destruct (present w ExifTool) | destruct (present w Tesseract)];
      destruct here; simpl in Hl;
      repeat (destruct Hl as [<- | Hl]; [vm_compute; reflexivity | ]);
      contradiction.
  - intros t' b l Hb Hl.
    destruct (present w Tesseract); destruct (present w ExifTool);
      destruct here; destruct b; try discriminate Hb;
      destruct t'; simpl in Hl;
      repeat (destruct Hl as [<- | Hl]; [vm_compute; reflexivity | ]);
      contradiction.
Qed.

(** C8 on macOS without Tesseract: the Homebrew hint once, no Linux hint. *)
Lemma remediation_block_matches_platform_witness :
  probes_exit (w_probes "darwin" 127 0) /\
  absent (w_probes "darwin" 127 0) Tesseract /\
  printed (trace (check_optional_tools (w_probes "darwin" 127 0))) =
  [nl ++ "Checking optional tools:";
   "! Tesseract OCR not found. Install it for text extraction from images:";
   "  brew install tesseract";
   "✓ ExifTool is available"] /\
  count_occ string_dec
    (printed (trace (check_optional_tools (w_probes "darwin" 127 0))))
    "  brew install tesseract" = 1 /\
  count_occ string_dec
    (printed (trace (check_optional_tools (w_probes "darwin" 127 0))))
    "  sudo apt-get install tesseract-ocr  # Debian/Ubuntu" = 0.
Proof.
  assert (Hexit : probes_exit (w_probes "darwin" 127 0))
    by (split; eexists; reflexivity).
  assert (Habs : absent (w_probes "darwin" 127 0) Tesseract)
    by (exists 127%Z; split; [discriminate | reflexivity]).
  pose proof (remediation_block_matches_platform
                (w_probes "darwin" 127 0) Tesseract Hexit Habs)
    as (_ & Hone & Hnone).
  split; [exact Hexit | ]. split; [exact Habs | ]. split; [reflexivity | ].
  split.
  - apply Hone. simpl. auto.
  - apply (Hnone Tesseract Linux); [reflexivity | simpl; auto].
Defined.

(** ** How the process ends *)

Lemma confirms_b_spec (w : world) : confirms_b w = true <-> confirms w.
Proof.
  unfold confirms_b, confirms. destruct (stdin w) as [line | ].
  - rewrite str_in_affirmative. split.
    + intros H. now exists line.
    + intros (l & [= <-] & H). exact H.
  - split; [discriminate | intros (l & H & _); discriminate H].
Qed.

Lemma all_install_spec (w : world) (pkgs : list string) :
  forallb (installs_b w) pkgs = true <-> Forall (installs w) pkgs.
Proof.
  rewrite forallb_forall, Forall_forall.
  split; intros H p Hp; apply installs_b_spec, H, Hp.
Qed.

Lemma setup_succeeds_spec (w : world) :
  check_passes w && confirms_b w && forallb (installs_b w) packages = true
  <-> setup_succeeds w.
Proof.
  unfold setup_succeeds.
  rewrite !andb_true_iff, check_passes_spec, confirms_b_spec, all_install_spec.
  tauto.
Qed.

(** The end of the process, by the answers of the environment. *)
Lemma script_termination (w : world) :
  snd (script w) =
  if check_passes w then
    match stdin w with
    | None => Traceback EOFError
    | Some line =>
        if str_in (strip (lower line)) ["y"; "yes"] then
          if forallb (installs_b w) packages then
            match outcome (check_optional_tools w) with
            | Ok _ => SysExit 0
            | Raise e => Traceback e
            end
          else SysExit 1
        else SysExit 1
    end
  else SysExit 1.
Proof.
  unfold script.
  destruct (check_passes w) eqn:Hc.
  - destruct (stdin w) as [line | ] eqn:Hin.
    + destruct (str_in (strip (lower line)) ["y"; "yes"]) eqn:Hyes.
      * destruct (forallb (installs_b w) packages) eqn:Hall.
        -- rewrite (main_installed w line Hc Hin Hyes Hall).
           now destruct (outcome (check_optional_tools w)).
        -- now rewrite (main_install_failed w line Hc Hin Hyes Hall).
      * now rewrite (main_cancelled w line Hc Hin Hyes).
    + now rewrite (main_eof w Hc Hin).
  - now rewrite (main_check_failed w Hc).
Qed.

Lemma check_optional_tools_outcome (w : world) :
  probes_exit w -> outcome (check_optional_tools w) = Ok tt.
Proof.
  intros H. now rewrite (check_optional_tools_report w H).
Qed.

Lemma termination_success (w : world) :
  check_passes w && confirms_b w && forallb (installs_b w) packages = true ->
  snd (script w) =
  match outcome (check_optional_tools w) with
  | Ok _ => SysExit 0
  | Raise e => Traceback e
  end.
Proof.
  rewrite script_termination. unfold confirms_b.
  destruct (check_passes w); [ | discriminate].
  destruct (stdin w) as [line | ]; [ | discriminate].
  destruct (str_in (strip (lower line)) ["y"; "yes"]); [ | discriminate].
  destruct (forallb (installs_b w) packages); [reflexivity | discriminate].
Qed.

Lemma termination_failure (w : world) :
  check_passes w && confirms_b w && forallb (installs_b w) packages = false ->
  snd (script w) = SysExit 1 \/ snd (script w) = Traceback EOFError.
Proof.
  rewrite script_termination. unfold confirms_b.
  destruct (check_passes w); [ | auto].
  destruct (stdin w) as [line | ]; [ | auto].
  destruct (str_in (strip (lower line)) ["y"; "yes"]); [ | auto].
  destruct (forallb (installs_b w) packages); [discriminate | auto].
Qed.

Lemma check_optional_tools_ok_exits (w : world) (u : unit) :
  outcome (check_optional_tools w) = Ok u -> probes_exit w.
Proof.
  unfold check_optional_tools, probes_exit, probe_exits, probe_of. run_M.
  rewrite !run_command_run.
  destruct (shell w tesseract_probe) as [c1 | m1]; [ | discriminate].
  destruct (shell w exiftool_probe) as [c2 | m2].
  - intros _. split; eexists; reflexivity.
  - destruct (c1 =? 0)%Z;
      destruct (platform w =? "darwin"); destruct (platform w =? "linux");
      discriminate.
Qed.




(** ** The confirmation gate *)

Lemma affirmative_trimmed_lowered (line : string) :
  affirmative line <->
  trimmed_lowered line = "y" \/ trimmed_lowered line = "yes".
Proof.
  unfold affirmative. now rewrite lower_strip_commute.
Qed.

Lemma gate_open (w : world) (line : string) :
  check_passes w = true -> stdin w = Some line ->
  str_in (strip (lower line)) ["y"; "yes"] = true -> proceeds w.
Proof.
  intros Hc Hin Hyes. unfold proceeds.
  destruct (forallb (installs_b w) packages) eqn:Hall.
  - rewrite (main_installed w line Hc Hin Hyes Hall). cbn [trace fst].
    eexists. reflexivity.
  - rewrite (main_install_failed w line Hc Hin Hyes Hall). cbn [trace fst].
    eexists. reflexivity.
Qed.

Lemma gate_closed (w : world) (line : string) :
  check_passes w = true -> stdin w = Some line ->
  str_in (strip (lower line)) ["y"; "yes"] = false ->
  cancelled w /\ ~ proceeds w.
Proof.
  intros Hc Hin Hno. unfold cancelled, proceeds, script.
  rewrite (main_cancelled w line Hc Hin Hno). split; [reflexivity | ].
  intros (post & H). cbn [trace fst] in H.
  apply app_inv_head in H. rewrite install_dependencies_run in H.
  cbn [trace fst app] in H. injection H as H _. discriminate H.
Qed.

(** C4: once the interpreter check has passed, the run goes on to the
    installation driver exactly when the operator's line, trimmed of the
    whitespace characters of [str.strip] and lower-cased, is [y] or
    [yes]; any other line ends the run with the cancellation message and
    exit code 1.  The lines [y], [Y], [yes] and [YES] let the run
    through; the empty line, [n], [no] and [maybe] cancel it. *)
Theorem confirmation_gate (w : world) (line : string) :
  check_succeeds w -> stdin w = Some line ->
  (proceeds w <-> trimmed_lowered line = "y" \/ trimmed_lowered line = "yes") /\
  (~ (trimmed_lowered line = "y" \/ trimmed_lowered line = "yes") -> cancelled w) /\
  (In line ["y"; "Y"; "yes"; "YES"] -> proceeds w) /\
  (In line [""; "n"; "no"; "maybe"] -> cancelled w /\ ~ proceeds w).
Proof.
  intros Hc Hin. apply check_passes_spec in Hc.
  rewrite <- affirmative_trimmed_lowered, <- str_in_affirmative.
  destruct (str_in (strip (lower line)) ["y"; "yes"]) eqn:Hyes.
  - pose proof (gate_open w line Hc Hin Hyes) as Hgo.
    split; [tauto | ]. split; [intros H; now contradiction H | ].
    split; [auto | ].
    simpl. intros [<- | [<- | [<- | [<- | []]]]]; discriminate Hyes.
  - destruct (gate_closed w line Hc Hin Hyes) as [Hstop Hnot].
    split; [split; [tauto | discriminate] | ]. split; [auto | ].
    split; [ | auto].
    simpl. intros [<- | [<- | [<- | [<- | []]]]]; discriminate Hyes.
Qed.

(** C4 on an answer with blanks and capitals, on an answer followed by a
    no-break space, and on a refusal. *)
Lemma confirmation_gate_witness :
  (check_succeeds (w_answer " Yes ") /\ stdin (w_answer " Yes ") = Some " Yes " /\
   trimmed_lowered " Yes " = "yes" /\ proceeds (w_answer " Yes ")) /\
  (check_succeeds (w_answer ("y" ++ utf8 0xA0)) /\
   trimmed_lowered ("y" ++ utf8 0xA0) = "y" /\
   proceeds (w_answer ("y" ++ utf8 0xA0))) /\
  (check_succeeds (w_answer "maybe") /\ stdin (w_answer "maybe") = Some "maybe" /\
   cancelled (w_answer "maybe")).
Proof.
  assert (Hc : forall line, check_succeeds (w_answer line))
    by (intros line; eexists; reflexivity).
  split; [ | split].
  - split; [apply Hc | ]. split; [reflexivity | ]. split; [reflexivity | ].
    apply (proj1 (confirmation_gate (w_answer " Yes ") " Yes " (Hc _) eq_refl)).
    right. reflexivity.
  - split; [apply Hc | ]. split; [reflexivity | ].
    apply (proj1 (confirmation_gate (w_answer ("y" ++ utf8 0xA0))
                    ("y" ++ utf8 0xA0) (Hc _) eq_refl)).
    left. reflexivity.
  - split; [apply Hc | ]. split; [reflexivity | ].
    apply (proj2 (proj2 (proj2
             (confirmation_gate (w_answer "maybe") "maybe" (Hc _) eq_refl)))).
    simpl. auto.
Defined.

(** ** Ordering of the interactions *)

Lemma script_trace (w : world) : fst (script w) = trace (main w).
Proof.
  unfold script, trace. now destruct (main w) as [t [b | e]].
Qed.

Lemma check_python_no_shell (w : world) :
  shell_commands (trace (check_python w)) = [].
Proof.
  destruct (check_python_run w) as (line & ->). reflexivity.
Qed.

Lemma preamble_no_shell (w : world) : shell_commands (preamble w) = [].
Proof.
  unfold preamble.
  now rewrite !shell_commands_app, !shell_commands_prints, check_python_no_shell.
Qed.

Lemma preamble_checks_and_asks (w : world) :
  In (ECheckOutput [executable w; "--version"]) (preamble w) /\
  In (EInput prompt) (preamble w).
Proof.
  unfold preamble. destruct (check_python_run w) as (line & ->).
  cbn [trace fst]. rewrite !in_app_iff. simpl. tauto.
Qed.

Lemma no_shell_no_split (t pre post : list event) (c : string) :
  shell_commands t = [] -> t <> (pre ++ EShell c :: post)%list.
Proof.
  intros H ->. rewrite shell_commands_app in H. simpl in H.
  now destruct (shell_commands pre).
Qed.

(** A shell command of [l1 ++ l2] lies in [l2] when [l1] has none. *)
Lemma split_after_quiet_prefix (l1 l2 pre post : list event) (c : string) :
  shell_commands l1 = [] ->
  (l1 ++ l2 = pre ++ EShell c :: post)%list ->
  exists mid, pre = (l1 ++ mid)%list.
Proof.
  revert pre. induction l1 as [ | x l1 IH]; intros pre Hq H.
  - now exists pre.
  - destruct pre as [ | y pre]; simpl in H.
    + injection H as -> _. discriminate Hq.
    + injection H as <- H.
      assert (Hq' : shell_commands l1 = [])
        by (destruct x; simpl in Hq; congruence).
      destruct (IH pre Hq' H) as (mid & ->). now exists mid.
Qed.

(** Without a passed check and a confirmation nothing is run in a shell. *)
Lemma no_consent_no_shell (w : world) :
  check_passes w && confirms_b w = false ->
  shell_commands (trace (main w)) = [] /\ exit_status (snd (script w)) = 1%Z.
Proof.
  intros H.
  assert (Hb : check_passes w && confirms_b w && forallb (installs_b w) packages
               = false) by now rewrite H.
  split; [ | destruct (termination_failure w Hb) as [-> | ->]; reflexivity].
  unfold confirms_b in H.
  destruct (check_passes w) eqn:Hc.
  - destruct (stdin w) as [line | ] eqn:Hin; cbn [andb] in H.
    + rewrite (main_cancelled w line Hc Hin H). cbn [trace fst].
      now rewrite shell_commands_app, preamble_no_shell.
    + rewrite (main_eof w Hc Hin). apply preamble_no_shell.
  - rewrite (main_check_failed w Hc). cbn [trace fst].
    now rewrite !shell_commands_app, shell_commands_prints, check_python_no_shell.
Qed.

(** With both, the whole preamble comes first. *)
Lemma consent_preamble_first (w : world) :
  check_passes w && confirms_b w = true ->
  exists rest, trace (main w) = (preamble w ++ rest)%list.
Proof.
  intros H. apply andb_true_iff in H as [Hc Hyes]. unfold confirms_b in Hyes.
  destruct (stdin w) as [line | ] eqn:Hin; [ | discriminate].
  destruct (forallb (installs_b w) packages) eqn:Hall.
  - rewrite (main_installed w line Hc Hin Hyes Hall). eexists. reflexivity.
  - rewrite (main_install_failed w line Hc Hin Hyes Hall). eexists. reflexivity.
Qed.

(** C7: wherever a shell command (an installation command in particular)
    occurs in a run, the interpreter check has succeeded, the operator has
    confirmed, and the version query and the prompt precede the command;
    if the check fails or the operator does not confirm, the run issues no
    shell command at all and ends with status 1. *)
Theorem no_install_before_check_and_consent (w : world) :
  (forall pre command post,
     fst (script w) = (pre ++ EShell command :: post)%list ->
     check_succeeds w /\ confirms w /\
     In (ECheckOutput [executable w; "--version"]) pre /\
     In (EInput prompt) pre) /\
  (~ check_succeeds w \/ ~ confirms w ->
   shell_commands (fst (script w)) = [] /\
   exit_status (snd (script w)) = 1%Z).
Proof.
  rewrite script_trace.
  destruct (check_passes w && confirms_b w) eqn:Hb.
  - apply andb_true_iff in Hb as Hcy. destruct Hcy as [Hc Hy].
    apply check_passes_spec in Hc. apply confirms_b_spec in Hy.
    split.
    + intros pre command post H.
      destruct (consent_preamble_first w Hb) as (rest & Hrest).
      rewrite Hrest in H.
      destruct (split_after_quiet_prefix _ _ _ _ _ (preamble_no_shell w) H)
        as (mid & ->).
      destruct (preamble_checks_and_asks w) as [H1 H2].
      rewrite !in_app_iff. tauto.
    + intros [H | H]; contradiction.
  - destruct (no_consent_no_shell w Hb) as [Hq Hone]. split.
    + intros pre command post H. exfalso.
      exact (no_shell_no_split _ _ _ _ Hq H).
    + intros _. now split.
Qed.

(** C7 at the first installation command of a run, and on a refusal. *)
Lemma no_install_before_check_and_consent_witness :
  (fst (script w_second_fails) =
   (preamble w_second_fails
      ++ [EPrint "Using Python command: python3";
          EPrint "Installing Python packages for image analysis...";
          EPrint "Installing torch..."]
      ++ EShell "python3 -m pip install --user torch"
      :: skipn 17 (fst (script w_second_fails)))%list /\
   In (EInput prompt)
      (preamble w_second_fails
         ++ [EPrint "Using Python command: python3";
             EPrint "Installing Python packages for image analysis...";
             EPrint "Installing torch..."])%list) /\
  (~ confirms (w_answer "no") /\
   shell_commands (fst (script (w_answer "no"))) = []).
Proof.
  split.
  - assert (H : fst (script w_second_fails) =
                ((preamble w_second_fails
                    ++ [EPrint "Using Python command: python3";
                        EPrint "Installing Python packages for image analysis...";
                        EPrint "Installing torch..."])
                   ++ EShell "python3 -m pip install --user torch"
                   :: skipn 17 (fst (script w_second_fails)))%list)
      by reflexivity.
    split; [rewrite <- app_assoc in H; exact H | ].
    exact (proj2 (proj2 (proj2
             (proj1 (no_install_before_check_and_consent w_second_fails)
                _ _ _ H)))).
  - assert (Hn : ~ confirms (w_answer "no"))
      by (rewrite <- confirms_b_spec; discriminate).
    split; [exact Hn | ].
    exact (proj1 (proj2 (no_install_before_check_and_consent (w_answer "no"))
                    (or_intror Hn))).
Defined.

(** ** Which interpreter the availability check runs *)

Lemma check_python_line (w : world) :
  exists text,
    trace (check_python w) =
    [ECheckOutput [executable w; "--version"];
     EPrint (if check_passes w then "✓ Python found: " ++ text
             else "✗ Python not found: " ++ text)].
Proof.
  unfold check_python, check_passes. run_M.
  destruct (version_query w [executable w; "--version"])
    as [[[ | p | p] | msg] [text | ]]; simpl; eexists; reflexivity.
Qed.

(** C2 as stated fails on a host where the resolver
    picks [python3] from the PATH while the script runs under another
    interpreter: the version query goes to the latter. *)
Lemma check_python_not_chosen_interpreter :
  get_python_command w_venv = "python3" /\
  trace (check_python w_venv) =
  [ECheckOutput ["/opt/venv/bin/python"; "--version"];
   EPrint "✓ Python found: Python 3.11.4"] /\
  ~ invokes_chosen_interpreter w_venv.
Proof.
  split; [reflexivity | ]. split; [reflexivity | ].
  intros (args & H). vm_compute in H.
  destruct H as [H | [H | []]]; discriminate H.
Qed.

(** C2, as the code has it: the availability check queries the version of
    the interpreter that is running the script ([sys.executable]), which
    is the resolver's command only when the resolver returns that very
    path; when the query fails, [check_python] returns [False], the
    process exits with code 1 and no shell command is ever run. *)
Theorem availability_check_runs_sys_executable (w : world) :
  (exists line,
     trace (check_python w) =
     [ECheckOutput [executable w; "--version"]; EPrint line]) /\
  (invokes_chosen_interpreter w <-> get_python_command w = executable w) /\
  (~ check_succeeds w ->
   outcome (check_python w) = Ok false /\
   snd (script w) = SysExit 1 /\
   shell_commands (fst (script w)) = []).
Proof.
  split; [ | split].
  - destruct (check_python_run w) as (line & ->). now exists line.
  - unfold invokes_chosen_interpreter.
    destruct (check_python_run w) as (line & ->). cbn [trace fst]. split.
    + intros (args & [H | [H | []]]); [ | discriminate H].
      now injection H.
    + intros ->. exists ["--version"]. now left.
  - intros Hno. rewrite <- check_passes_spec in Hno.
    apply not_true_is_false in Hno.
    rewrite check_python_outcome, Hno. split; [reflexivity | ].
    rewrite script_termination, Hno. split; [reflexivity | ].
    rewrite script_trace. apply no_consent_no_shell. now rewrite Hno.
Qed.

(** C2 on a host where the version query cannot be spawned. *)
Lemma availability_check_runs_sys_executable_witness :
  ~ check_succeeds w_no_interpreter /\
  outcome (check_python w_no_interpreter) = Ok false /\
  snd (script w_no_interpreter) = SysExit 1 /\
  shell_commands (fst (script w_no_interpreter)) = [].
Proof.
  assert (Hno : ~ check_succeeds w_no_interpreter)
    by (intros (text & H); discriminate H).
  split; [exact Hno | ].
  exact (proj2 (proj2 (availability_check_runs_sys_executable w_no_interpreter))
           Hno).
Defined.

(** ** A failed installation ends the run *)

Lemma last_char_app (a b : string) :
  b <> "" -> last_char (a ++ b) = last_char b.
Proof.
  intros Hb. induction a as [ | c a IH]; [reflexivity | ].
  simpl. rewrite IH. destruct (a ++ b) eqn:E; [ | reflexivity].
  destruct a; simpl in E; [congruence | discriminate E].
Qed.

(** No installation command for a package of the list is one of the two
    probes. *)
Lemma pip_install_not_probe (cmd f p : string) :
  In f [user_local; override_system] -> In p packages ->
  pip_install cmd f p <> tesseract_probe /\
  pip_install cmd f p <> exiftool_probe.
Proof.
  intros Hf Hp.
  assert (H : last_char (pip_install cmd f p) <> Some "1"%char).
  { unfold pip_install. simpl in Hf, Hp.
    destruct Hf as [<- | [<- | []]];
      destruct Hp as [<- | [<- | [<- | [<- | []]]]];
      (rewrite last_char_app; [ | discriminate]); discriminate. }
  split; intros E; rewrite E in H; now apply H.
Qed.

Lemma probe_section_entered_spec (t : list event) :
  probe_section_entered t <-> existsb probe_event t = true.
Proof.
  unfold probe_section_entered. rewrite existsb_exists. split.
  - intros [H | [H | H]]; eexists; (split; [exact H | ]); simpl;
      rewrite ?String.eqb_refl, ?orb_true_r; reflexivity.
  - intros ([l | c | argv | p] & Hin & He); simpl in He; try discriminate.
    + apply String.eqb_eq in He. subst l. now left.
    + apply orb_true_iff in He as [He | He]; apply String.eqb_eq in He;
        subst c; auto.
Qed.

Lemma probe_event_user_command (w : world) (p : string) :
  In p packages ->
  probe_event (EShell (user_command w p)) = false /\
  probe_event (EShell (override_command w p)) = false.
Proof.
  intros Hp. unfold user_command, override_command. simpl.
  split; apply orb_false_iff; split; apply String.eqb_neq;
    apply pip_install_not_probe; simpl; auto.
Qed.

Lemma for_method_no_probe (w : world) (p : string) :
  In p packages ->
  existsb probe_event
    (trace (for_method (get_python_command w) p install_methods w)) = false.
Proof.
  intros Hp. rewrite for_method_run.
  destruct (probe_event_user_command w p Hp) as [Hu Ho].
  destruct (succeeded (shell w (user_command w p)));
    [ | destruct (succeeded (shell w (override_command w p)))];
    cbn [trace fst existsb]; rewrite Hu, ?Ho; reflexivity.
Qed.

Lemma for_package_no_probe (w : world) (pkgs : list string) :
  incl pkgs packages ->
  existsb probe_event (trace (for_package (get_python_command w) pkgs w)) = false.
Proof.
  induction pkgs as [ | p rest IH]; intros Hincl; [reflexivity | ].
  assert (Hp : In p packages) by (apply Hincl; now left).
  assert (Hrest : incl rest packages)
    by (intros q Hq; apply Hincl; now right).
  rewrite for_package_cons. cbv zeta.
  destruct (installs_b w p); cbn [trace fst existsb];
    rewrite !existsb_app, for_method_no_probe by assumption.
  - now rewrite IH.
  - reflexivity.
Qed.

Lemma preamble_no_probe (w : world) : existsb probe_event (preamble w) = false.
Proof.
  unfold preamble. destruct (check_python_line w) as (text & ->).
  rewrite !existsb_app. destruct (check_passes w); reflexivity.
Qed.

(** The whole run when the driver fails. *)
Lemma script_install_failed (w : world) :
  check_succeeds w -> confirms w -> ~ Forall (installs w) packages ->
  script w =
  ((preamble w ++ trace (install_dependencies w)
      ++ map EPrint (failure_advice (get_python_command w)))%list,
   SysExit 1).
Proof.
  intros Hc Hy Hall.
  apply check_passes_spec in Hc. apply confirms_b_spec in Hy.
  rewrite <- all_install_spec in Hall. apply not_true_is_false in Hall.
  unfold confirms_b in Hy.
  destruct (stdin w) as [line | ] eqn:Hin; [ | discriminate].
  unfold script. now rewrite (main_install_failed w line Hc Hin Hy Hall).
Qed.

(** The first package that fails both strategies. *)
Lemma first_failure (w : world) (pkgs : list string) :
  Exists (fails_both w) pkgs ->
  exists done p todo,
    pkgs = (done ++ p :: todo)%list /\
    Forall (installs w) done /\ fails_both w p.
Proof.
  induction pkgs as [ | q rest IH]; intros H; [inversion H | ].
  destruct (installs_b w q) eqn:Hq.
  - apply installs_b_spec in Hq as Hq'.
    assert (Hrest : Exists (fails_both w) rest).
    { inversion H as [? ? Hf | ? ? Hr]; subst; [ | exact Hr].
      apply installs_b_false in Hf. congruence. }
    destruct (IH Hrest) as (done & p & todo & -> & Hdone & Hp).
    exists (q :: done), p, todo. repeat split; auto; apply Hp.
  - apply installs_b_false in Hq.
    exists [], q, rest. repeat split; auto; apply Hq.
Qed.

(** C1 as stated fails where the second package fails both
    strategies: the run ends with status 1 and never reaches the
    optional-tool section. *)
Lemma failed_install_skips_probes_example :
  check_succeeds w_second_fails /\ confirms w_second_fails /\
  Exists (fails_both w_second_fails) packages /\
  snd (script w_second_fails) = SysExit 1 /\
  ~ probe_section_entered (fst (script w_second_fails)).
Proof.
  split; [eexists; reflexivity | ].
  split; [exists "y"; split; [reflexivity | left; reflexivity] | ].
  split; [apply Exists_cons_tl, Exists_cons_hd; split; discriminate | ].
  split; [reflexivity | ].
  rewrite probe_section_entered_spec. vm_compute. discriminate.
Qed.

(** C1, as the code has it: when the interpreter check succeeds, the
    operator confirms and some package fails both strategies, the process
    exits with code 1; the run ends with the virtual-environment guidance
    for the first such package followed by the advice of [main]; no
    command is issued for any later package; and the optional-tool
    section is not entered. *)
Theorem failed_install_ends_run (w : world) :
  check_succeeds w -> confirms w -> Exists (fails_both w) packages ->
  snd (script w) = SysExit 1 /\
  (exists done p todo,
     packages = (done ++ p :: todo)%list /\
     Forall (installs w) done /\ fails_both w p /\
     (exists pre,
        fst (script w) =
        (pre ++ map EPrint (venv_guidance (get_python_command w) p)
             ++ map EPrint (failure_advice (get_python_command w)))%list) /\
     (forall q, In q todo -> attempts_for w q (fst (script w)) = [])) /\
  ~ probe_section_entered (fst (script w)).
Proof.
  intros Hc Hy Hsome.
  destruct (first_failure w packages Hsome) as (done & p & todo & Hsplit & Hdone & Hp).
  assert (Hnot : ~ Forall (installs w) packages).
  { intros Hall. rewrite Forall_forall in Hall.
    assert (Hin : In p packages)
      by (rewrite Hsplit, in_app_iff; right; now left).
    specialize (Hall p Hin). apply installs_b_spec in Hall.
    apply installs_b_false in Hp. congruence. }
  rewrite (script_install_failed w Hc Hy Hnot). cbn [fst snd].
  split; [reflexivity | ]. split.
  - exists done, p, todo. repeat split; try assumption; try apply Hp.
    + rewrite install_dependencies_run. cbn [trace fst]. rewrite Hsplit.
      destruct (for_package_abort w done todo p Hdone Hp) as (pre & ->).
      exists (preamble w
                ++ EPrint ("Using Python command: " ++ get_python_command w)
                :: EPrint "Installing Python packages for image analysis..."
                :: pre)%list.
      rewrite <- !app_assoc. cbn [app]. rewrite <- ?app_assoc. reflexivity.
    + intros q Hq. unfold attempts_for.
      rewrite !shell_commands_app, preamble_no_shell, shell_commands_prints.
      rewrite install_dependencies_run. cbn [trace fst shell_commands app].
      rewrite for_package_shell, app_nil_r, Hsplit.
      apply attempts_after_failure; try assumption.
      rewrite <- Hsplit. exact packages_NoDup.
  - rewrite probe_section_entered_spec, !existsb_app, preamble_no_probe.
    rewrite install_dependencies_run. cbn [trace fst existsb].
    rewrite for_package_no_probe by apply incl_refl.
    intros H. simpl in H. discriminate H.
Qed.

(** C1 on the host where the second package fails both strategies. *)
Lemma failed_install_ends_run_witness :
  check_succeeds w_second_fails /\ confirms w_second_fails /\
  Exists (fails_both w_second_fails) packages /\
  snd (script w_second_fails) = SysExit 1 /\
  ~ probe_section_entered (fst (script w_second_fails)).
Proof.
  assert (Hc : check_succeeds w_second_fails) by (eexists; reflexivity).
  assert (Hy : confirms w_second_fails)
    by (exists "y"; split; [reflexivity | left; reflexivity]).
  assert (Hf : Exists (fails_both w_second_fails) packages)
    by (apply Exists_cons_tl, Exists_cons_hd; split; discriminate).
  destruct (failed_install_ends_run w_second_fails Hc Hy Hf) as (Hexit & _ & Hskip).
  split; [exact Hc | ]. split; [exact Hy | ]. split; [exact Hf | ].
  split; [exact Hexit | exact Hskip].
Defined.

(** ** Independence of the two probes *)

Lemma reported_run (w : world) (t : tool) :
  probes_exit w ->
  reported t (trace (check_optional_tools w)) =
  tool_report t (present w t) (bucket_of (platform w)).
Proof.
  intros H. rewrite (check_optional_tools_report w H). unfold reported.
  destruct t; destruct (present w Tesseract); destruct (present w ExifTool);
    destruct (bucket_of (platform w)); reflexivity.
Qed.

Section TwoRuns.

Variables w1 w2 : world.
Hypothesis Hsame : same_but_probes w1 w2.

Lemma same_python_command : get_python_command w1 = get_python_command w2.
Proof.
  destruct Hsame as (Hw & He & _). unfold get_python_command.
  now rewrite !Hw, He.
Qed.

Lemma same_check : check_passes w1 = check_passes w2.
Proof.
  destruct Hsame as (_ & He & _ & _ & Hv & _). unfold check_passes.
  now rewrite He, Hv.
Qed.

Lemma same_installs (p : string) :
  In p packages -> installs_b w1 p = installs_b w2 p.
Proof.
  intros Hp. destruct Hsame as (_ & _ & _ & Hs & _).
  unfold installs_b, user_command, override_command.
  rewrite same_python_command.
  rewrite !Hs; try reflexivity;
    apply pip_install_not_probe; simpl; auto.
Qed.

Lemma same_all_install :
  forallb (installs_b w1) packages = forallb (installs_b w2) packages.
Proof.
  assert (H : forall pkgs, incl pkgs packages ->
              forallb (installs_b w1) pkgs = forallb (installs_b w2) pkgs).
  { induction pkgs as [ | p rest IH]; intros Hincl; [reflexivity | ].
    simpl. rewrite same_installs by (apply Hincl; now left).
    rewrite IH; [reflexivity | ]. intros q Hq. apply Hincl. now right. }
  apply H, incl_refl.
Qed.

Lemma same_termination :
  probes_exit w1 -> probes_exit w2 -> snd (script w1) = snd (script w2).
Proof.
  intros H1 H2. rewrite !script_termination.
  rewrite same_check, same_all_install.
  rewrite (check_optional_tools_outcome w1 H1).
  rewrite (check_optional_tools_outcome w2 H2).
  destruct Hsame as (_ & _ & _ & _ & _ & -> & _). reflexivity.
Qed.

End TwoRuns.

(** C9: take two environments that differ at most in the statuses the
    Tesseract and ExifTool probes exit with.  The process ends the same
    way in both, with the same exit status; what the section reports
    about a tool is a function of that tool's own probe and the platform;
    so the two runs report the same about a tool as soon as they agree on
    that tool's probe, whatever the other probe does. *)
Theorem probes_independent_and_non_fatal (w1 w2 : world) :
  same_but_probes w1 w2 -> probes_exit w1 -> probes_exit w2 ->
  snd (script w1) = snd (script w2) /\
  exit_status (snd (script w1)) = exit_status (snd (script w2)) /\
  (forall t,
     reported t (trace (check_optional_tools w1)) =
     tool_report t (present w1 t) (bucket_of (platform w1))) /\
  (forall t, present w1 t = present w2 t ->
     reported t (trace (check_optional_tools w1)) =
     reported t (trace (check_optional_tools w2))).
Proof.
  intros Hsame H1 H2.
  pose proof (same_termination w1 w2 Hsame H1 H2) as Hend.
  split; [exact Hend | ]. split; [now rewrite Hend | ].
  split.
  - intros t. now apply reported_run.
  - intros t Ht. rewrite !reported_run by assumption.
    destruct Hsame as (_ & _ & -> & _). now rewrite Ht.
Qed.

(** C9 on two Linux hosts that differ in the ExifTool probe only: same
    ending, same report on Tesseract, different report on ExifTool. *)
Lemma probes_independent_and_non_fatal_witness :
  same_but_probes (w_probes "linux" 0 0) (w_probes "linux" 0 127) /\
  probes_exit (w_probes "linux" 0 0) /\
  probes_exit (w_probes "linux" 0 127) /\
  snd (script (w_probes "linux" 0 0)) = SysExit 0 /\
  snd (script (w_probes "linux" 0 127)) = SysExit 0 /\
  reported Tesseract (trace (check_optional_tools (w_probes "linux" 0 0))) =
  reported Tesseract (trace (check_optional_tools (w_probes "linux" 0 127))) /\
  reported ExifTool (trace (check_optional_tools (w_probes "linux" 0 0))) <>
  reported ExifTool (trace (check_optional_tools (w_probes "linux" 0 127))).
Proof.
  assert (Hsame : same_but_probes (w_probes "linux" 0 0) (w_probes "linux" 0 127)).
  { repeat split. intros command Ht He. simpl.
    apply String.eqb_neq in Ht, He. now rewrite Ht, He. }
  assert (H1 : probes_exit (w_probes "linux" 0 0))
    by (split; eexists; reflexivity).
  assert (H2 : probes_exit (w_probes "linux" 0 127))
    by (split; eexists; reflexivity).
  destruct (probes_independent_and_non_fatal _ _ Hsame H1 H2)
    as (Hend & _ & _ & Hrep).
  split; [exact Hsame | ]. split; [exact H1 | ]. split; [exact H2 | ].
  split; [reflexivity | ]. split; [rewrite <- Hend; reflexivity | ].
  split; [apply Hrep; reflexivity | ].
  discriminate.
Defined.

(** * Further properties *)

(** ** What the availability check reports *)

(** X1: [check_python] never raises.  It returns [True] exactly when the
    version query exits with 0 and its output decodes, and then prints the
    stripped version text; a non-zero status, a process that cannot be
    spawned and output that does not decode each make it print the
    not-found line with the text of that exception and return [False]. *)
Theorem check_python_reports (w : world) :
  let argv := [executable w; "--version"] in
  let said line b := check_python w = ([ECheckOutput argv; EPrint line], Ok b) in
  (outcome (check_python w) = Ok true <-> check_succeeds w) /\
  (outcome (check_python w) = Ok false <-> ~ check_succeeds w) /\
  (forall text, version_query w argv = (Exit 0, Utf8 text) ->
     said ("✓ Python found: " ++ strip text) true) /\
  (version_query w argv = (Exit 0, NotUtf8) ->
     said ("✗ Python not found: " ++ py_str w UnicodeDecodeError) false) /\
  (forall code out, code <> 0%Z -> version_query w argv = (Exit code, out) ->
     said ("✗ Python not found: " ++ py_str w (CalledProcessError code (Argv argv)))
          false) /\
  (forall msg out, version_query w argv = (SpawnFailed msg, out) ->
     said ("✗ Python not found: " ++ py_str w (OSError msg)) false).
Proof.
  intros argv said. subst said argv. cbv beta.
  rewrite check_python_outcome, <- check_passes_spec.
  split; [split; congruence | ].
  split; [destruct (check_passes w); split; congruence | ].
  unfold check_python. run_M.
  split; [intros text -> | split; [intros -> | split]];
    try reflexivity.
  - intros code out Hne ->. destruct code; [congruence | | ]; reflexivity.
  - intros msg out ->. reflexivity.
Qed.

(** X1 on a host whose interpreter answers with bytes that do not decode. *)
Lemma check_python_reports_witness :
  version_query w_undecodable [executable w_undecodable; "--version"]
  = (Exit 0, NotUtf8) /\
  check_python w_undecodable =
  ([ECheckOutput ["/usr/bin/python3.11"; "--version"];
    EPrint "✗ Python not found: 'utf-8' codec can't decode byte 0xff"],
   Ok false).
Proof.
  split; [reflexivity | ].
  exact (proj1 (proj2 (proj2 (proj2 (check_python_reports w_undecodable))))
           eq_refl).
Defined.

(** ** More on the installation driver *)

(** X2: one package.  The two strategies end in one of three ways: the
    user-local command exits with 0 and the line naming the user
    directory is printed; it does not (a non-zero status or a process
    that cannot be spawned, which the bare [except] swallows), the
    override command exits with 0 and the line naming the override is
    printed; or neither does and nothing is printed.  The loop never
    raises. *)
Theorem installed_line_names_strategy (w : world) (p : string) :
  let r := for_method (get_python_command w) p install_methods w in
  (shell w (user_command w p) = Exit 0 ->
   r = ([EShell (user_command w p);
         EPrint ("✓ " ++ p ++ " installed successfully (using user directory)")],
        Ok true)) /\
  (shell w (user_command w p) <> Exit 0 ->
   shell w (override_command w p) = Exit 0 ->
   r = ([EShell (user_command w p); EShell (override_command w p);
         EPrint ("✓ " ++ p
                   ++ " installed successfully (using system packages (with override))")],
        Ok true)) /\
  (fails_both w p ->
   r = ([EShell (user_command w p); EShell (override_command w p)], Ok false)) /\
  (forall e, outcome r <> Raise e).
Proof.
  intros r. subst r. rewrite for_method_run.
  split; [ | split; [ | split]].
  - intros H. apply succeeded_true in H. now rewrite H.
  - intros Hu Ho. apply succeeded_false in Hu. apply succeeded_true in Ho.
    now rewrite Hu, Ho.
  - intros [Hu Ho]. apply succeeded_false in Hu, Ho. now rewrite Hu, Ho.
  - intros e.
    destruct (succeeded (shell w (user_command w p)));
      [ | destruct (succeeded (shell w (override_command w p)))];
      discriminate.
Qed.

(** X2 on a host where the user-local command for [torch] cannot be
    spawned: the override command is tried and installs the package. *)
Lemma installed_line_names_strategy_witness :
  shell (w_unspawnable "python3 -m pip install --user torch")
        "python3 -m pip install --user torch"
  = SpawnFailed "Resource temporarily unavailable" /\
  for_method "python3" "torch" install_methods
    (w_unspawnable "python3 -m pip install --user torch") =
  ([EShell "python3 -m pip install --user torch";
    EShell "python3 -m pip install --break-system-packages torch";
    EPrint "✓ torch installed successfully (using system packages (with override))"],
   Ok true).
Proof.
  split; [reflexivity | ].
  apply (proj1 (proj2 (installed_line_names_strategy
                         (w_unspawnable "python3 -m pip install --user torch")
                         "torch"))).
  - discriminate.
  - reflexivity.
Defined.

(** X3: [install_dependencies] never raises, whatever the commands do; it
    returns [True] exactly when every package installs by one of the two
    strategies, and [False] exactly when some package fails both. *)
Theorem install_dependencies_verdict (w : world) :
  (outcome (install_dependencies w) = Ok true <-> Forall (installs w) packages) /\
  (outcome (install_dependencies w) = Ok false <-> Exists (fails_both w) packages) /\
  (forall e, outcome (install_dependencies w) <> Raise e).
Proof.
  rewrite install_dependencies_run. unfold outcome. cbn [snd].
  rewrite <- all_install_spec.
  assert (Hex : forallb (installs_b w) packages = false
                <-> Exists (fails_both w) packages).
  { rewrite Exists_exists. split.
    - intros H. destruct (forallb (installs_b w) packages) eqn:E;
        [discriminate | ].
      clear H. induction packages as [ | p rest IH]; [discriminate | ].
      simpl in E. apply andb_false_iff in E as [E | E].
      + exists p. split; [now left | now apply installs_b_false].
      + destruct (IH E) as (q & Hq & Hf). exists q. split; [now right | exact Hf].
    - intros (p & Hp & Hf). apply installs_b_false in Hf.
      apply not_true_is_false. intros Hall.
      rewrite forallb_forall in Hall. specialize (Hall p Hp). congruence. }
  rewrite <- Hex.
  destruct (forallb (installs_b w) packages); repeat split; congruence.
Qed.

(** X3 on the host where the second package fails both strategies. *)
Lemma install_dependencies_verdict_witness :
  Exists (fails_both w_second_fails) packages /\
  outcome (install_dependencies w_second_fails) = Ok false.
Proof.
  assert (Hf : Exists (fails_both w_second_fails) packages)
    by (apply Exists_cons_tl, Exists_cons_hd; split; discriminate).
  split; [exact Hf | ].
  exact (proj2 (proj1 (proj2 (install_dependencies_verdict w_second_fails))) Hf).
Defined.

Lemma for_method_installation_events (w : world) (p : string) :
  In p packages ->
  Forall (installation_event w)
    (trace (for_method (get_python_command w) p install_methods w)).
Proof.
  intros Hp. rewrite for_method_run.
  assert (Hu : installation_event w (EShell (user_command w p)))
    by (exists user_local, p; simpl; auto).
  assert (Ho : installation_event w (EShell (override_command w p)))
    by (exists override_system, p; simpl; auto).
  destruct (succeeded (shell w (user_command w p)));
    [ | destruct (succeeded (shell w (override_command w p)))];
    cbn [trace fst]; repeat constructor; assumption.
Qed.

Lemma for_package_installation_events (w : world) (pkgs : list string) :
  incl pkgs packages ->
  Forall (installation_event w)
    (trace (for_package (get_python_command w) pkgs w)).
Proof.
  induction pkgs as [ | p rest IH]; intros Hincl; [constructor | ].
  assert (Hp : In p packages) by (apply Hincl; now left).
  assert (Hrest : incl rest packages)
    by (intros q Hq; apply Hincl; now right).
  rewrite for_package_cons. cbv zeta.
  destruct (installs_b w p); cbn [trace fst];
    constructor; try exact I; apply Forall_app; split;
    try (now apply for_method_installation_events); try (now apply IH).
  unfold venv_guidance. simpl. repeat constructor.
Qed.

(** X4: the installation driver only prints and runs the package
    manager: every shell command of [install_dependencies] is the
    resolver's command followed by [-m pip install], one of the two flags
    and a package of the list; it never reads input and never captures a
    process's output. *)
Theorem install_dependencies_only_installs (w : world) :
  Forall (installation_event w) (trace (install_dependencies w)) /\
  (forall c, In c (shell_commands (trace (install_dependencies w))) ->
     exists f p,
       In f [user_local; override_system] /\ In p packages /\
       c = get_python_command w ++ " -m pip install " ++ f ++ " " ++ p).
Proof.
  assert (H : Forall (installation_event w) (trace (install_dependencies w))).
  { rewrite install_dependencies_run. cbn [trace fst].
    repeat (constructor; [exact I | ]).
    apply for_package_installation_events, incl_refl. }
  split; [exact H | ].
  intros c Hc. rewrite Forall_forall in H.
  apply (H (EShell c)).
  clear H. induction (trace (install_dependencies w)) as [ | e t IH];
    [contradiction | ].
  destruct e; simpl in Hc |- *; auto.
  destruct Hc as [-> | Hc]; auto.
Qed.

(** X4 on the last command of the run in which the second package fails. *)
Lemma install_dependencies_only_installs_witness :
  In "python3 -m pip install --break-system-packages transformers"
     (shell_commands (trace (install_dependencies w_second_fails))) /\
  exists f p,
    In f [user_local; override_system] /\ In p packages /\
    "python3 -m pip install --break-system-packages transformers"
    = get_python_command w_second_fails ++ " -m pip install " ++ f ++ " " ++ p.
Proof.
  assert (H : In "python3 -m pip install --break-system-packages transformers"
                 (shell_commands (trace (install_dependencies w_second_fails))))
    by (vm_compute; tauto).
  split; [exact H | ].
  exact (proj2 (install_dependencies_only_installs w_second_fails) _ H).
Defined.

(** ** No command is run twice *)

Lemma commands_issued_in (w : world) (pkgs : list string) (c : string) :
  In c (commands_issued w pkgs) ->
  exists p, In p pkgs /\ (c = user_command w p \/ c = override_command w p).
Proof.
  induction pkgs as [ | p rest IH]; [contradiction | ].
  assert (Hrest : In c (commands_issued w rest) ->
                  exists q, In q (p :: rest) /\
                    (c = user_command w q \/ c = override_command w q)).
  { intros H. destruct (IH H) as (q & Hq & Hc). exists q. split; [now right | exact Hc]. }
  assert (Hu : c = user_command w p ->
               exists q, In q (p :: rest) /\
                 (c = user_command w q \/ c = override_command w q))
    by (intros ->; exists p; split; [now left | now left]).
  assert (Ho : c = override_command w p ->
               exists q, In q (p :: rest) /\
                 (c = user_command w q \/ c = override_command w q))
    by (intros ->; exists p; split; [now left | now right]).
  cbn [commands_issued].
  destruct (succeeded (shell w (user_command w p))).
  - intros [H | H]; auto.
  - destruct (succeeded (shell w (override_command w p))).
    + intros [H | [H | H]]; auto.
    + intros [H | [H | []]]; auto.
Qed.

Lemma user_not_override (w : world) (p q : string) :
  user_command w p <> override_command w q.
Proof.
  unfold user_command, override_command. intros H.
  apply pip_install_inj in H; simpl; auto.
  destruct H as [H _]. discriminate H.
Qed.

Lemma commands_issued_fresh (w : world) (pkgs : list string) (p : string) :
  ~ In p pkgs ->
  ~ In (user_command w p) (commands_issued w pkgs) /\
  ~ In (override_command w p) (commands_issued w pkgs).
Proof.
  intros Hp.
  split; intros H; apply commands_issued_in in H as (q & Hq & [H | H]).
  - apply pip_install_inj in H; simpl; auto. destruct H as [_ ->]. auto.
  - now apply user_not_override in H.
  - symmetry in H. now apply user_not_override in H.
  - apply pip_install_inj in H; simpl; auto. destruct H as [_ ->]. auto.
Qed.

Lemma commands_issued_NoDup (w : world) (pkgs : list string) :
  NoDup pkgs -> NoDup (commands_issued w pkgs).
Proof.
  induction 1 as [ | p rest Hp _ IH]; [constructor | ].
  destruct (commands_issued_fresh w rest p Hp) as [Hu Ho].
  cbn [commands_issued].
  destruct (succeeded (shell w (user_command w p)));
    [ | destruct (succeeded (shell w (override_command w p)))].
  - now constructor.
  - constructor.
    + simpl. intros [H | H]; [ | auto].
      symmetry in H. now apply user_not_override in H.
    + now constructor.
  - constructor; [ | constructor; [auto | constructor]].
    simpl. intros [H | []]. symmetry in H. now apply user_not_override in H.
Qed.

Lemma commands_issued_length (w : world) (pkgs : list string) :
  length (commands_issued w pkgs) <= 2 * length pkgs.
Proof.
  induction pkgs as [ | p rest IH]; [auto | ].
  cbn [commands_issued].
  destruct (succeeded (shell w (user_command w p)));
    [ | destruct (succeeded (shell w (override_command w p)))];
    simpl in *; lia.
Qed.

(** The commands of the optional-tool section, whatever the probes do. *)
Lemma check_optional_tools_shell (w : world) :
  shell_commands (trace (check_optional_tools w)) =
  match shell w tesseract_probe with
  | Exit _ => [tesseract_probe; exiftool_probe]
  | SpawnFailed _ => [tesseract_probe]
  end.
Proof.
  unfold check_optional_tools. run_M. rewrite !run_command_run.
  destruct (shell w tesseract_probe) as [c1 | m1]; [ | reflexivity].
  destruct (c1 =? 0)%Z; destruct (shell w exiftool_probe) as [c2 | m2];
    try destruct (c2 =? 0)%Z;
    destruct (platform w =? "darwin"); destruct (platform w =? "linux");
    reflexivity.
Qed.

(** The commands of a whole run. *)
Lemma script_shell_commands (w : world) :
  shell_commands (fst (script w)) = [] \/
  shell_commands (fst (script w)) = commands_issued w packages \/
  shell_commands (fst (script w)) =
  (commands_issued w packages
     ++ shell_commands (trace (check_optional_tools w)))%list.
Proof.
  rewrite script_trace.
  destruct (check_passes w && confirms_b w) eqn:Hb.
  - right. apply andb_true_iff in Hb as [Hc Hy]. unfold confirms_b in Hy.
    destruct (stdin w) as [line | ] eqn:Hin; [ | discriminate].
    destruct (forallb (installs_b w) packages) eqn:Hall.
    + right. rewrite (main_installed w line Hc Hin Hy Hall). cbn [trace fst].
      rewrite !shell_commands_app, preamble_no_shell, shell_commands_prints.
      rewrite install_dependencies_run. cbn [trace fst shell_commands app].
      rewrite for_package_shell. f_equal.
      destruct (outcome (check_optional_tools w));
        now rewrite ?shell_commands_prints, app_nil_r.
    + left. rewrite (main_install_failed w line Hc Hin Hy Hall). cbn [trace fst].
      rewrite !shell_commands_app, preamble_no_shell, shell_commands_prints.
      rewrite install_dependencies_run. cbn [trace fst shell_commands app].
      now rewrite for_package_shell, app_nil_r.
  - left. now apply no_consent_no_shell.
Qed.

(** X5: in a run of the script no shell command is issued twice, so no
    command is ever retried, and at most ten are issued: two per package
    and the two probes. *)
Theorem no_command_twice (w : world) :
  NoDup (shell_commands (fst (script w))) /\
  length (shell_commands (fst (script w))) <= 10.
Proof.
  pose proof (commands_issued_NoDup w packages packages_NoDup) as Hnd.
  pose proof (commands_issued_length w packages) as Hlen.
  change (length packages) with 4 in Hlen.
  destruct (script_shell_commands w) as [-> | [-> | ->]].
  - split; [constructor | simpl; lia].
  - split; [exact Hnd | lia].
  - rewrite check_optional_tools_shell.
    assert (Hprobe : forall c, In c [tesseract_probe; exiftool_probe] ->
                     ~ In c (commands_issued w packages)).
    { intros c Hc Hin. apply commands_issued_in in Hin as (p & Hp & Hin).
      assert (Hu := pip_install_not_probe (get_python_command w) user_local p).
      assert (Ho := pip_install_not_probe (get_python_command w) override_system p).
      unfold user_command, override_command in Hin.
      simpl in Hc, Hu, Ho.
      destruct Hc as [<- | [<- | []]]; destruct Hin as [Hin | Hin];
        symmetry in Hin; first [apply Hu in Hin | apply Ho in Hin]; auto. }
    assert (Htwo : NoDup [tesseract_probe; exiftool_probe])
      by (repeat constructor; simpl; intuition discriminate).
    assert (Hone : NoDup [tesseract_probe])
      by (repeat constructor; simpl; tauto).
    rewrite length_app.
    destruct (shell w tesseract_probe); cbn [Datatypes.length]; (split; [ | lia]);
      apply NoDup_app; try assumption;
      intros c Hin Hc; apply (Hprobe c); simpl in Hc |- *; tauto.
Qed.

(** ** A run that exits with 0 *)

(** X6: a run that ends in [sys.exit(0)] is made of the preamble up to the
    prompt, the installation driver, the success banner, the
    optional-tool section with both probes run, and the closing lines, in
    that order and with nothing else; the setup has then succeeded. *)
Theorem successful_run (w : world) :
  snd (script w) = SysExit 0 ->
  setup_succeeds w /\ probes_exit w /\
  fst (script w) =
  (preamble w ++ trace (install_dependencies w)
     ++ map EPrint success_banner
     ++ trace (check_optional_tools w)
     ++ map EPrint closing)%list /\
  shell_commands (fst (script w)) =
  (commands_issued w packages ++ [tesseract_probe; exiftool_probe])%list.
Proof.
  intros Hexit.
  destruct (check_passes w && confirms_b w && forallb (installs_b w) packages)
    eqn:Hb.
  2: { destruct (termination_failure w Hb) as [H | H]; rewrite H in Hexit;
       discriminate Hexit. }
  assert (Hs : setup_succeeds w) by now apply setup_succeeds_spec.
  rewrite (termination_success w Hb) in Hexit.
  destruct (outcome (check_optional_tools w)) as [u | e] eqn:Ho;
    [ | discriminate Hexit].
  pose proof (check_optional_tools_ok_exits w u Ho) as Hp.
  apply andb_true_iff in Hb as [Hb Hall].
  apply andb_true_iff in Hb as [Hc Hy]. unfold confirms_b in Hy.
  destruct (stdin w) as [line | ] eqn:Hin; [ | discriminate].
  assert (Htrace : fst (script w) =
                   (preamble w ++ trace (install_dependencies w)
                      ++ map EPrint success_banner
                      ++ trace (check_optional_tools w)
                      ++ map EPrint closing)%list).
  { rewrite script_trace, (main_installed w line Hc Hin Hy Hall), Ho.
    reflexivity. }
  split; [exact Hs | ]. split; [exact Hp | ]. split; [exact Htrace | ].
  rewrite Htrace, !shell_commands_app, preamble_no_shell, !shell_commands_prints.
  rewrite install_dependencies_run. cbn [trace fst shell_commands app].
  rewrite for_package_shell, app_nil_r, check_optional_tools_shell.
  destruct Hp as [[c1 H1] _]. cbn [probe_of] in H1. now rewrite H1.
Qed.

(** X6 on the host where everything works: four installation commands,
    then the two probes. *)
Lemma successful_run_witness :
  snd (script w_all_ok) = SysExit 0 /\
  shell_commands (fst (script w_all_ok)) =
  ["python3 -m pip install --user torch";
   "python3 -m pip install --user transformers";
   "python3 -m pip install --user Pillow";
   "python3 -m pip install --user numpy";
   tesseract_probe; exiftool_probe].
Proof.
  split; [reflexivity | ].
  destruct (successful_run w_all_ok eq_refl) as (_ & _ & _ & H).
  rewrite H. reflexivity.
Defined.

(** ** The edges of the prompt and of the probes *)

(** X7: when the interpreter check passes and the standard input is at
    its end, [input] raises [EOFError] and nobody catches it: the run
    stops right after the prompt with a traceback (status 1), no shell
    command has been issued and the cancellation message is not
    printed. *)
Theorem eof_at_prompt (w : world) :
  check_succeeds w -> stdin w = None ->
  script w = (preamble w, Traceback EOFError) /\
  exit_status (snd (script w)) = 1%Z /\
  shell_commands (fst (script w)) = [] /\
  ~ In (EPrint "Setup cancelled.") (fst (script w)).
Proof.
  intros Hc Hin. apply check_passes_spec in Hc.
  assert (H : script w = (preamble w, Traceback EOFError))
    by (unfold script; now rewrite (main_eof w Hc Hin)).
  rewrite H. cbn [fst snd exit_status].
  split; [reflexivity | ]. split; [reflexivity | ].
  split; [apply preamble_no_shell | ].
  unfold preamble. destruct (check_python_line w) as (text & ->).
  rewrite Hc, !in_app_iff. simpl. intuition discriminate.
Qed.

(** X7 on the host whose standard input is closed. *)
Lemma eof_at_prompt_witness :
  check_succeeds w_eof /\ stdin w_eof = None /\
  snd (script w_eof) = Traceback EOFError /\
  shell_commands (fst (script w_eof)) = [].
Proof.
  assert (Hc : check_succeeds w_eof) by (eexists; reflexivity).
  destruct (eof_at_prompt w_eof Hc eq_refl) as (H & _ & Hq & _).
  split; [exact Hc | ]. split; [reflexivity | ].
  split; [now rewrite H | exact Hq].
Defined.

(** X8: the probes are independent only as far as their exit statuses
    go.  When the Tesseract probe cannot be spawned, [run_command] lets
    the [OSError] through: the section stops after that command and the
    ExifTool probe is never run.  When only the ExifTool probe cannot be
    spawned, the report on Tesseract is already printed.  In a run whose
    setup has succeeded, such a failure ends the process with a traceback
    (status 1) right after the failing probe, without the closing
    lines. *)
Theorem probe_spawn_failure (w : world) :
  (forall msg, shell w tesseract_probe = SpawnFailed msg ->
     check_optional_tools w =
     ([EPrint (nl ++ "Checking optional tools:"); EShell tesseract_probe],
      Raise (OSError msg))) /\
  (forall code msg,
     shell w tesseract_probe = Exit code ->
     shell w exiftool_probe = SpawnFailed msg ->
     check_optional_tools w =
     ((EPrint (nl ++ "Checking optional tools:")
         :: EShell tesseract_probe
         :: map EPrint (tool_report Tesseract (code =? 0)%Z (bucket_of (platform w)))
         ++ [EShell exiftool_probe])%list,
      Raise (OSError msg))) /\
  (forall e, setup_succeeds w -> outcome (check_optional_tools w) = Raise e ->
     script w =
     ((preamble w ++ trace (install_dependencies w)
         ++ map EPrint success_banner
         ++ trace (check_optional_tools w))%list,
      Traceback e) /\
     exit_status (snd (script w)) = 1%Z).
Proof.
  split; [ | split].
  - intros msg H. unfold check_optional_tools. run_M.
    now rewrite run_command_run, H.
  - intros code msg H1 H2. unfold check_optional_tools. run_M.
    rewrite !run_command_run, H1, H2. unfold bucket_of.
    destruct (code =? 0)%Z;
      destruct (platform w =? "darwin"); destruct (platform w =? "linux");
      reflexivity.
  - intros e Hs He. apply setup_succeeds_spec in Hs as Hb.
    apply andb_true_iff in Hb as [Hb Hall].
    apply andb_true_iff in Hb as [Hc Hy]. unfold confirms_b in Hy.
    destruct (stdin w) as [line | ] eqn:Hin; [ | discriminate].
    unfold script. rewrite (main_installed w line Hc Hin Hy Hall), He.
    rewrite app_nil_r. split; reflexivity.
Qed.

(** X8 on a host where the Tesseract probe cannot be spawned: the run
    installs everything, then ends in a traceback after that probe. *)
Lemma probe_spawn_failure_witness :
  setup_succeeds (w_unspawnable tesseract_probe) /\
  outcome (check_optional_tools (w_unspawnable tesseract_probe))
  = Raise (OSError "Resource temporarily unavailable") /\
  snd (script (w_unspawnable tesseract_probe))
  = Traceback (OSError "Resource temporarily unavailable") /\
  shell_commands (trace (check_optional_tools (w_unspawnable tesseract_probe)))
  = [tesseract_probe].
Proof.
  assert (Hs : setup_succeeds (w_unspawnable tesseract_probe))
    by (apply setup_succeeds_spec; reflexivity).
  destruct (probe_spawn_failure (w_unspawnable tesseract_probe))
    as (Hfirst & _ & Hrun).
  pose proof (Hfirst _ eq_refl) as Hsection.
  assert (He : outcome (check_optional_tools (w_unspawnable tesseract_probe))
               = Raise (OSError "Resource temporarily unavailable"))
    by now rewrite Hsection.
  destruct (Hrun _ Hs He) as [Hscript _].
  split; [exact Hs | ]. split; [exact He | ].
  split; [now rewrite Hscript | now rewrite Hsection].
Defined.

(** ** How often the script asks *)

Lemma count_inputs_app (t1 t2 : list event) :
  count_inputs (t1 ++ t2) = count_inputs t1 + count_inputs t2.
Proof.
  induction t1 as [ | [l | c | argv | p] t1 IH]; simpl; congruence.
Qed.

Lemma count_queries_app (t1 t2 : list event) :
  count_queries (t1 ++ t2) = count_queries t1 + count_queries t2.
Proof.
  induction t1 as [ | [l | c | argv | p] t1 IH]; simpl; congruence.
Qed.

Lemma quiet_counts (t : list event) :
  forallb print_or_shell t = true ->
  count_inputs t = 0 /\ count_queries t = 0.
Proof.
  induction t as [ | [l | c | argv | p] t IH]; simpl; auto; discriminate.
Qed.

Lemma prints_quiet (lines : list string) :
  forallb print_or_shell (map EPrint lines) = true.
Proof.
  induction lines; simpl; auto.
Qed.

Lemma install_dependencies_quiet (w : world) :
  forallb print_or_shell (trace (install_dependencies w)) = true.
Proof.
  apply forallb_forall. intros e He.
  pose proof (proj1 (Forall_forall _ _)
                (for_package_installation_events w packages (incl_refl _))) as H.
  rewrite install_dependencies_run in He. cbn [trace fst] in He.
  destruct He as [<- | [<- | He]]; try reflexivity.
  specialize (H e He). now destruct e.
Qed.

Lemma check_optional_tools_quiet (w : world) :
  forallb print_or_shell (trace (check_optional_tools w)) = true.
Proof.
  unfold check_optional_tools. run_M. rewrite !run_command_run.
  destruct (shell w tesseract_probe) as [c1 | m1]; [ | reflexivity].
  destruct (c1 =? 0)%Z; destruct (shell w exiftool_probe) as [c2 | m2];
    try destruct (c2 =? 0)%Z;
    destruct (platform w =? "darwin"); destruct (platform w =? "linux");
    reflexivity.
Qed.

Lemma preamble_counts (w : world) :
  count_inputs (preamble w) = 1 /\ count_queries (preamble w) = 1.
Proof.
  unfold preamble. destruct (check_python_run w) as (line & ->).
  cbn [trace fst].
  rewrite !count_inputs_app, !count_queries_app.
  destruct (quiet_counts _ (prints_quiet banner)) as [-> ->].
  destruct (quiet_counts _ (prints_quiet (announcement (get_python_command w))))
    as [-> ->].
  split; reflexivity.
Qed.

(** X9: in every run the version of the interpreter is queried exactly
    once; the operator is asked exactly once when the check passes and
    never when it fails.  The installation driver and the optional-tool
    section neither ask nor query. *)
Theorem one_query_one_prompt (w : world) :
  count_queries (fst (script w)) = 1 /\
  (check_succeeds w -> count_inputs (fst (script w)) = 1) /\
  (~ check_succeeds w -> count_inputs (fst (script w)) = 0) /\
  count_inputs (trace (install_dependencies w)) = 0 /\
  count_queries (trace (install_dependencies w)) = 0 /\
  count_inputs (trace (check_optional_tools w)) = 0 /\
  count_queries (trace (check_optional_tools w)) = 0.
Proof.
  destruct (quiet_counts _ (install_dependencies_quiet w)) as [Hi1 Hi2].
  destruct (quiet_counts _ (check_optional_tools_quiet w)) as [Ho1 Ho2].
  destruct (preamble_counts w) as [Hp1 Hp2].
  rewrite <- check_passes_spec, script_trace.
  assert (Hmain :
            count_queries (trace (main w)) = 1 /\
            count_inputs (trace (main w)) = if check_passes w then 1 else 0).
  { destruct (check_passes w) eqn:Hc.
    - destruct (stdin w) as [line | ] eqn:Hin.
      + destruct (str_in (strip (lower line)) ["y"; "yes"]) eqn:Hy.
        * destruct (forallb (installs_b w) packages) eqn:Hall.
          -- rewrite (main_installed w line Hc Hin Hy Hall). cbn [trace fst].
             rewrite !count_queries_app, !count_inputs_app, Hp1, Hp2, Hi1, Hi2,
               Ho1, Ho2.
             destruct (quiet_counts _ (prints_quiet success_banner)) as [-> ->].
             destruct (outcome (check_optional_tools w)).
             ++ destruct (quiet_counts _ (prints_quiet closing)) as [-> ->].
                split; reflexivity.
             ++ split; reflexivity.
          -- rewrite (main_install_failed w line Hc Hin Hy Hall). cbn [trace fst].
             rewrite !count_queries_app, !count_inputs_app, Hp1, Hp2, Hi1, Hi2.
             destruct (quiet_counts _
                         (prints_quiet (failure_advice (get_python_command w))))
               as [-> ->].
             split; reflexivity.
        * rewrite (main_cancelled w line Hc Hin Hy). cbn [trace fst].
          rewrite !count_queries_app, !count_inputs_app, Hp1, Hp2.
          split; reflexivity.
      + rewrite (main_eof w Hc Hin). cbn [trace fst]. now split.
    - rewrite (main_check_failed w Hc). cbn [trace fst].
      destruct (check_python_run w) as (line & ->). cbn [trace fst].
      rewrite !count_queries_app, !count_inputs_app.
      destruct (quiet_counts _ (prints_quiet banner)) as [-> ->].
      split; reflexivity. }
  destruct Hmain as [Hq Hn].
  split; [exact Hq | ].
  split; [intros Hc; now rewrite Hn, Hc | ].
  split; [intros Hc; apply not_true_is_false in Hc; now rewrite Hn, Hc | ].
  auto.
Qed.

(** X9 on a host where the version query cannot be spawned. *)
Lemma one_query_one_prompt_witness :
  ~ check_succeeds w_no_interpreter /\
  count_queries (fst (script w_no_interpreter)) = 1 /\
  count_inputs (fst (script w_no_interpreter)) = 0.
Proof.
  assert (Hno : ~ check_succeeds w_no_interpreter)
    by (intros (text & H); discriminate H).
  destruct (one_query_one_prompt w_no_interpreter) as (Hq & _ & Hn & _).
  split; [exact Hno | ]. split; [exact Hq | exact (Hn Hno)].
Defined.

(** ** The answers the prompt accepts *)

Lemma lower_app (a b : string) : lower (a ++ b) = lower a ++ lower b.
Proof.
  induction a as [ | c a IH]; simpl; congruence.
Qed.

Lemma append_assoc (a b c : string) : (a ++ b) ++ c = a ++ b ++ c.
Proof.
  induction a as [ | x a IH]; simpl; congruence.
Qed.

Lemma append_nil_r (a : string) : a ++ "" = a.
Proof.
  induction a as [ | x a IH]; simpl; congruence.
Qed.

Lemma blank_nil : blank "".
Proof.
  exists []. split; [constructor | reflexivity].
Qed.

Lemma concat_cons (ch : string) (chars : list string) :
  String.concat "" (ch :: chars) = ch ++ String.concat "" chars.
Proof.
  destruct chars as [ | d chars]; simpl; [now rewrite append_nil_r | reflexivity].
Qed.

Lemma blank_cons (ch s : string) : In ch whitespace -> blank s -> blank (ch ++ s).
Proof.
  intros Hch (chars & Hall & ->). exists (ch :: chars). split.
  - now constructor.
  - now rewrite concat_cons.
Qed.

Lemma is_space_whitespace (ch : string) : is_space ch = true <-> In ch whitespace.
Proof.
  unfold is_space. rewrite existsb_exists. split.
  - intros (p & Hp & E). apply String.eqb_eq in E. now subst.
  - intros H. exists ch. split; [exact H | apply String.eqb_refl].
Qed.

(** A whitespace character at the front is dropped, whatever follows. *)
Lemma lstrip_whitespace (ch s : string) :
  In ch whitespace -> lstrip (ch ++ s) = lstrip s.
Proof.
  intros H. vm_compute in H.
  repeat (destruct H as [<- | H]; [reflexivity | ]).
  contradiction.
Qed.

Lemma lstrip_blank (pad s : string) : blank pad -> lstrip (pad ++ s) = lstrip s.
Proof.
  intros (chars & Hall & ->). induction Hall as [ | ch chars Hch _ IH].
  - reflexivity.
  - now rewrite concat_cons, append_assoc, lstrip_whitespace.
Qed.

Lemma lstrip_decompose (s : string) :
  exists pad, s = pad ++ lstrip s /\ blank pad.
Proof.
  induction s as [s IH] using string_strong_ind.
  assert (Hnone : exists pad, s = pad ++ s /\ blank pad)
    by (exists ""; split; [reflexivity | apply blank_nil]).
  destruct s as [ | a r1]; [exact Hnone | ]. cbn [lstrip].
  destruct (is_space (String a "")) eqn:E1.
  { destruct (IH r1) as (pad & Hr & Hpad); [simpl; lia | ].
    exists (String a "" ++ pad). split.
    - simpl. now rewrite <- Hr.
    - apply blank_cons; [now apply is_space_whitespace | exact Hpad]. }
  destruct r1 as [ | b r2]; [exact Hnone | ].
  destruct (is_space (String a (String b ""))) eqn:E2.
  { destruct (IH r2) as (pad & Hr & Hpad); [simpl; lia | ].
    exists (String a (String b "") ++ pad). split.
    - simpl. now rewrite <- Hr.
    - apply blank_cons; [now apply is_space_whitespace | exact Hpad]. }
  destruct r2 as [ | c r3]; [exact Hnone | ].
  destruct (is_space (String a (String b (String c "")))) eqn:E3.
  { destruct (IH r3) as (pad & Hr & Hpad); [simpl; lia | ].
    exists (String a (String b (String c "")) ++ pad). split.
    - simpl. now rewrite <- Hr.
    - apply blank_cons; [now apply is_space_whitespace | exact Hpad]. }
  exact Hnone.
Qed.

(** A string is blank exactly when [lstrip] leaves nothing of it. *)
Lemma blank_lstrip (s : string) : blank s <-> lstrip s = "".
Proof.
  split.
  - intros H. rewrite <- (append_nil_r s). now rewrite lstrip_blank.
  - intros H. destruct (lstrip_decompose s) as (pad & Hs & Hpad).
    rewrite H, append_nil_r in Hs. now subst.
Qed.

Lemma rstrip_decompose (s : string) :
  exists pad, s = rstrip s ++ pad /\ blank pad.
Proof.
  induction s as [ | a s (pad & Hs & Hpad)].
  - exists "". split; [reflexivity | apply blank_nil].
  - rewrite rstrip_cons. destruct (lstrip (String a s) =? "") eqn:E.
    + apply String.eqb_eq in E. exists (String a s).
      split; [reflexivity | now apply blank_lstrip].
    + exists pad. split; [simpl; now rewrite <- Hs | exact Hpad].
Qed.

Lemma rstrip_blank (pad : string) : blank pad -> rstrip pad = "".
Proof.
  intros H. apply blank_lstrip in H.
  destruct pad as [ | a pad]; [reflexivity | ].
  now rewrite rstrip_cons, H.
Qed.

(** [rstrip] keeps no more than it must: whenever whitespace characters
    alone follow a prefix, what [rstrip] keeps lies within that prefix. *)
Lemma rstrip_shortest (x pad : string) :
  blank pad -> exists rest, x = rstrip (x ++ pad) ++ rest.
Proof.
  intros Hpad. induction x as [ | a x (rest & IH)].
  - exists "". cbn [append]. now rewrite rstrip_blank.
  - cbn [append]. rewrite rstrip_cons.
    destruct (lstrip (String a (x ++ pad)) =? "").
    + now exists (String a x).
    + exists rest. simpl. now rewrite <- IH.
Qed.

Lemma strip_decompose (s : string) :
  exists pad1 pad2,
    s = pad1 ++ strip s ++ pad2 /\ blank pad1 /\ blank pad2.
Proof.
  destruct (lstrip_decompose s) as (pad1 & H1 & Hp1).
  destruct (rstrip_decompose (lstrip s)) as (pad2 & H2 & Hp2).
  exists pad1, pad2. unfold strip. split; [ | auto].
  rewrite <- H2. exact H1.
Qed.

Lemma blank_lower (pad : string) : blank pad -> blank (lower pad).
Proof.
  intros H. apply blank_lstrip. apply blank_lstrip in H.
  now rewrite <- lower_lstrip, H.
Qed.

(** A byte with which no whitespace character begins stays where it is. *)
Lemma lstrip_head (c : ascii) (r : string) :
  (forall r', is_space (String c r') = false) ->
  lstrip (String c r) = String c r.
Proof.
  intros H. cbn [lstrip]. rewrite H.
  destruct r as [ | b r]; [reflexivity | ]. rewrite H.
  destruct r as [ | d r]; [reflexivity | ]. now rewrite H.
Qed.

Lemma rstrip_head (c : ascii) (r : string) :
  (forall r', is_space (String c r') = false) ->
  rstrip (String c r) = String c (rstrip r).
Proof.
  intros H. now rewrite rstrip_cons, lstrip_head.
Qed.

Lemma is_space_y (r : string) : is_space (String "y" r) = false.
Proof. reflexivity. Qed.

Lemma is_space_e (r : string) : is_space (String "e" r) = false.
Proof. reflexivity. Qed.

Lemma is_space_s (r : string) : is_space (String "s" r) = false.
Proof. reflexivity. Qed.

Lemma strip_yes (core pad : string) :
  core = "y" \/ core = "yes" -> blank pad -> strip (core ++ pad) = core.
Proof.
  intros Hcore Hpad. unfold strip.
  destruct Hcore as [-> | ->]; cbn [append].
  - rewrite (lstrip_head _ _ is_space_y), (rstrip_head _ _ is_space_y).
    now rewrite rstrip_blank.
  - rewrite (lstrip_head _ _ is_space_y), (rstrip_head _ _ is_space_y),
      (rstrip_head _ _ is_space_e), (rstrip_head _ _ is_space_s).
    now rewrite rstrip_blank.
Qed.

Lemma lower_char_y (c : ascii) :
  lower_char c = "y"%char -> c = "y"%char \/ c = "Y"%char.
Proof.
  destruct c as [[] [] [] [] [] [] [] []]; vm_compute; intros H;
    first [discriminate H | auto].
Qed.

Lemma lower_char_e (c : ascii) :
  lower_char c = "e"%char -> c = "e"%char \/ c = "E"%char.
Proof.
  destruct c as [[] [] [] [] [] [] [] []]; vm_compute; intros H;
    first [discriminate H | auto].
Qed.

Lemma lower_char_s (c : ascii) :
  lower_char c = "s"%char -> c = "s"%char \/ c = "S"%char.
Proof.
  destruct c as [[] [] [] [] [] [] [] []]; vm_compute; intros H;
    first [discriminate H | auto].
Qed.

Lemma lower_yes_spellings (core : string) :
  lower core = "y" \/ lower core = "yes" <-> In core yes_spellings.
Proof.
  split.
  - intros [H | H].
    + destruct core as [ | c [ | d rest]]; try discriminate H.
      injection H as H. apply lower_char_y in H as [-> | ->]; simpl; auto.
    + destruct core as [ | c1 [ | c2 [ | c3 [ | c4 rest]]]]; try discriminate H.
      injection H as H1 H2 H3.
      apply lower_char_y in H1. apply lower_char_e in H2.
      apply lower_char_s in H3.
      destruct H1 as [-> | ->]; destruct H2 as [-> | ->];
        destruct H3 as [-> | ->]; simpl; tauto.
  - unfold yes_spellings. simpl.
    intros H.
    repeat (destruct H as [<- | H]; [vm_compute; auto | ]).
    contradiction.
Qed.

(** X10: the test of lines 137-138 accepts exactly the lines made of
    whitespace characters (those of [str.strip], ASCII or not), then [y]
    or [yes] in any mix of upper and lower case, then whitespace
    characters. *)
Theorem accepted_answers (line : string) :
  affirmative line <->
  exists pad1 core pad2,
    line = pad1 ++ core ++ pad2 /\
    blank pad1 /\ blank pad2 /\ In core yes_spellings.
Proof.
  split.
  - intros H. apply affirmative_trimmed_lowered in H.
    unfold trimmed_lowered in H. apply lower_yes_spellings in H.
    destruct (strip_decompose line) as (pad1 & pad2 & Hline & H1 & H2).
    now exists pad1, (strip line), pad2.
  - intros (pad1 & core & pad2 & -> & H1 & H2 & Hcore).
    apply lower_yes_spellings in Hcore.
    unfold affirmative. rewrite !lower_app.
    assert (E : strip (lower pad1 ++ lower core ++ lower pad2) = lower core).
    { unfold strip. rewrite lstrip_blank by now apply blank_lower.
      apply strip_yes; [exact Hcore | now apply blank_lower]. }
    rewrite E. exact Hcore.
Qed.

(** X10 on a line with a no-break space before and an ideographic space
    after a mixed-case [yes], and on a line with blanks inside. *)
Lemma accepted_answers_witness :
  affirmative (utf8 0xA0 ++ "yEs" ++ utf8 0x3000) /\
  ~ affirmative "y e s".
Proof.
  split.
  - apply (proj2 (accepted_answers (utf8 0xA0 ++ "yEs" ++ utf8 0x3000))).
    exists (utf8 0xA0), "yEs", (utf8 0x3000).
    split; [reflexivity | ].
    split; [rewrite <- (append_nil_r (utf8 0xA0));
            apply blank_cons; [vm_compute; tauto | apply blank_nil] | ].
    split; [rewrite <- (append_nil_r (utf8 0x3000));
            apply blank_cons; [vm_compute; tauto | apply blank_nil] | ].
    simpl. tauto.
  - intros [H | H]; discriminate H.
Defined.
